(** * Upbit API service layer

    A shallow embedding of [front/src/services/upbit/upbitApi.ts] and the
    properties of its operations: the public quotation calls, the signed
    account call, the candle converters and the two formatters.

    JavaScript numbers are IEEE 754 binary64 values, taken here from the
    specification of floating-point arithmetic of the standard library
    ([SpecFloat]); the built-ins the module calls ([Number.prototype.toFixed],
    [Math.round], template-literal conversion of a number, the [ko-KR]
    number format) follow ECMA-262 and ECMA-402 on the exact value of the
    double. Asynchronous functions are state-passing computations over a
    [World] that records what reached the collaborators (axios, jose, uuid). *)

From Stdlib Require Import ZArith List String Ascii Bool Lia.
From Stdlib Require Import Floats.SpecFloat.
Import ListNotations.
Local Open Scope string_scope.
Local Open Scope Z_scope.

(** ** JavaScript numbers *)

Definition prec : Z := 53.
Definition emax : Z := 1024.

(** A [number] is a binary64 datum: NaN, an infinity, a signed zero or
    [(-1)^s * m * 2^e]. *)
Definition number : Type := spec_float.

Definition js_mul (x y : number) : number := SFmul prec emax x y.
Definition js_div (x y : number) : number := SFdiv prec emax x y.
Definition js_neg (x : number) : number := SFopp x.

(** The number denoted by an integer literal, and by a decimal literal
    [digits / 10^fraction_digits] (both operands of the division are exact
    for the literals used below, so the quotient is the nearest double). *)
Definition number_of_Z (n : Z) : number := binary_normalize prec emax n 0 false.
Definition decimal_literal (digits : Z) (fraction_digits : Z) : number :=
  js_div (number_of_Z digits) (number_of_Z (10 ^ fraction_digits)).

(** [x >= y]: false as soon as one side is NaN. *)
Definition js_ge (x y : number) : bool :=
  match SFcompare x y with
  | Some Gt | Some Eq => true
  | _ => false
  end.

(** *** Decimal digits *)

Definition digit_char (d : Z) : ascii := ascii_of_nat (48 + Z.to_nat d).

Fixpoint decimal_fuel (fuel : nat) (n : Z) (acc : string) : string :=
  match fuel with
  | O => acc
  | S fuel' =>
      let acc' := String (digit_char (n mod 10)) acc in
      if n <? 10 then acc' else decimal_fuel fuel' (n / 10) acc'
  end.

(** The decimal numeral of a natural number, most significant digit first. *)
Definition decimal (n : Z) : string :=
  decimal_fuel (S (Z.to_nat (Z.log2 n))) n "".

Definition strlen (s : string) : Z := Z.of_nat (String.length s).

Fixpoint repeat_char (c : ascii) (n : nat) : string :=
  match n with
  | O => ""
  | S n' => String c (repeat_char c n')
  end.

Definition zeros (n : Z) : string := repeat_char "0"%char (Z.to_nat n).

Definition string_take (n : Z) (s : string) : string := substring 0 (Z.to_nat n) s.
Definition string_drop (n : Z) (s : string) : string :=
  substring (Z.to_nat n) (String.length s - Z.to_nat n) s.

(** *** Exact arithmetic on [a * 10^p * 2^q]

    The conversions to text work on the mathematical value of a double.
    With [p] and [q] of either sign the value is the fraction
    [a * 10^max(p,0) * 2^max(q,0) / (10^max(-p,0) * 2^max(-q,0))]. *)

Definition pow_pos_part (b z : Z) : Z := b ^ Z.max z 0.

Definition scaled_num (a p q : Z) : Z := a * pow_pos_part 10 p * pow_pos_part 2 q.
Definition scaled_den (p q : Z) : Z := pow_pos_part 10 (- p) * pow_pos_part 2 (- q).

(** Comparison of [a * 10^p * 2^q] with the integer [b]. *)
Definition compare_scaled (a p q b : Z) : comparison :=
  scaled_num a p q ?= b * scaled_den p q.

(** [floor (a * 10^p * 2^q)] and [floor (a * 10^p * 2^q + 1/2)]. *)
Definition floor_scaled (a p q : Z) : Z := scaled_num a p q / scaled_den p q.
Definition round_half_up_scaled (a p q : Z) : Z :=
  (2 * scaled_num a p q + scaled_den p q) / (2 * scaled_den p q).

(** *** Number::toString (radix 10)

    ECMA-262 asks for integers [n], [k], [s] with [k >= 1],
    [10^(k-1) <= s < 10^k], such that [s * 10^(n-k)] converts back to the
    number, [k] as small as possible (and [s] closest to the number). *)

(** The [n] with [10^(n-1) <= m * 2^e < 10^n]. *)
Definition decimal_exponent (m e : Z) : Z :=
  let num := m * pow_pos_part 2 e in
  let den := pow_pos_part 2 (- e) in
  if den <=? num then strlen (decimal (num / den))
  else 1 - strlen (decimal ((den + num - 1) / num - 1)).

(** Does [s * 10^p] round (to nearest, ties to even) to the double
    [m * 2^e]?  Bounds are in quarters of the unit in the last place; the
    lower neighbour is half as far when [m] is the least normal mantissa. *)
Definition rounds_to (m e s p : Z) : bool :=
  let below := if (m =? 2 ^ (prec - 1)) && (3 - emax - prec <? e) then 1 else 2 in
  let lo := compare_scaled s p (2 - e) (4 * m - below) in
  let hi := compare_scaled s p (2 - e) (4 * m + 2) in
  match lo with
  | Gt => true
  | Eq => Z.even m
  | Lt => false
  end
  &&
  match hi with
  | Lt => true
  | Eq => Z.even m
  | Gt => false
  end.

(** Search for the least [k], from [k] upwards; 17 digits always suffice
    for a double. The result is [(n, k, s)]. *)
Fixpoint shortest_digits (fuel : nat) (m e n k : Z) : Z * Z * Z :=
  let p := n - k in
  let s_lo := floor_scaled m (- p) e in
  let s_hi := s_lo + 1 in
  let pick s := if s =? 10 ^ k then (n + 1, k, s / 10) else (n, k, s) in
  match fuel with
  | O => pick s_lo
  | S fuel' =>
      match rounds_to m e s_lo p, rounds_to m e s_hi p with
      | true, true =>
          match compare_scaled (2 * m) (- p) e (2 * s_lo + 1) with
          | Lt => pick s_lo
          | Gt => pick s_hi
          | Eq => if Z.even s_lo then pick s_lo else pick s_hi
          end
      | true, false => pick s_lo
      | false, true => pick s_hi
      | false, false => shortest_digits fuel' m e n (k + 1)
      end
  end.

Definition Number_toString_positive (m e : Z) : string :=
  let '(n, k, s) := shortest_digits 17 m e (decimal_exponent m e) 1 in
  let ds := decimal s in
  if (-6 <? n) && (n <=? 21) then
    if k <=? n then ds ++ zeros (n - k)
    else if 0 <? n then string_take n ds ++ "." ++ string_drop n ds
    else "0." ++ zeros (- n) ++ ds
  else
    let ex := n - 1 in
    let tail := "e" ++ (if ex <? 0 then "-" else "+") ++ decimal (Z.abs ex) in
    if k =? 1 then ds ++ tail
    else string_take 1 ds ++ "." ++ string_drop 1 ds ++ tail.

Definition Number_toString (x : number) : string :=
  match x with
  | S754_nan => "NaN"
  | S754_zero _ => "0"
  | S754_infinity false => "Infinity"
  | S754_infinity true => "-Infinity"
  | S754_finite false m e => Number_toString_positive (Zpos m) e
  | S754_finite true m e => "-" ++ Number_toString_positive (Zpos m) e
  end.

(** *** Number.prototype.toFixed

    For a finite [x] below [10^21] in magnitude: the integer [n] for which
    [n / 10^f - |x|] is as close to zero as possible (the larger one of
    two), written with [f] digits after the point; the sign is kept even
    when [n] is zero. Other values go through Number::toString. *)

Definition fixed_digits (n f : Z) : string :=
  let m := decimal n in
  if f =? 0 then m
  else
    let k := strlen m in
    let m' := if k <=? f then zeros (f + 1 - k) ++ m else m in
    let k' := if k <=? f then f + 1 else k in
    string_take (k' - f) m' ++ "." ++ string_drop (k' - f) m'.

Definition Number_toFixed (x : number) (fractionDigits : Z) : string :=
  match x with
  | S754_nan | S754_infinity _ => Number_toString x
  | S754_zero _ => fixed_digits 0 fractionDigits
  | S754_finite s m e =>
      (if s then "-" else "") ++
      match compare_scaled (Zpos m) 0 e (10 ^ 21) with
      | Lt => fixed_digits (round_half_up_scaled (Zpos m) fractionDigits e) fractionDigits
      | _ => Number_toString (S754_finite false m e)
      end
  end.

(** *** Math.round

    Non-finite and integral numbers are returned as they are; a number in
    [(0, 0.5)] gives [+0] and one in [[-0.5, 0)] gives [-0]; otherwise the
    closest integer, the larger one in a tie. *)
Definition Math_round (x : number) : number :=
  match x with
  | S754_finite s m e =>
      if 0 <=? e then x
      else
        let n := (2 * cond_Zopp s (Zpos m) + 2 ^ (- e)) / 2 ^ (1 - e) in
        if n =? 0 then S754_zero s else number_of_Z n
  | _ => x
  end.

(** *** Intl.NumberFormat('ko-KR').format

    Decimal style with the default options: at most three fraction digits
    (ties away from zero), no trailing zeros, groups of three integer
    digits separated by a comma, a minus sign for negative values and for
    negative zero. The digits are those the formatter of the engines
    prints: exact for integers below [2^53], the shortest digits that read
    back as the same double otherwise. *)

Fixpoint insert_separators (digits : string) : string :=
  match digits with
  | EmptyString => EmptyString
  | String c rest =>
      String c
        (if (0 <? strlen rest) && (strlen rest mod 3 =? 0)
         then String ","%char (insert_separators rest)
         else insert_separators rest)
  end.

Fixpoint strip_trailing_zeros (s : string) : string :=
  match s with
  | EmptyString => EmptyString
  | String c rest =>
      match strip_trailing_zeros rest with
      | EmptyString => if Ascii.eqb c "0"%char then EmptyString else String c EmptyString
      | rest' => String c rest'
      end
  end.

(** The thousandths shown for the finite value [m * 2^e]. An integer below
    [2^53] is taken digit for digit. Any other value is taken from its
    shortest round-trip decimal, the digits of Number::toString (so a large
    integer shows those digits followed by zeros), rounded to three
    fraction digits. *)
Definition shown_thousandths (m e : Z) : Z :=
  let num := m * pow_pos_part 2 e in
  let den := pow_pos_part 2 (- e) in
  if (num mod den =? 0) && (num / den <? 2 ^ prec) then num / den * 1000
  else
    let '(n, k, digits) := shortest_digits 17 m e (decimal_exponent m e) 1 in
    round_half_up_scaled digits (n - k + 3) 0.

Definition Intl_NumberFormat_ko_KR_format (x : number) : string :=
  match x with
  | S754_nan => "NaN"
  | S754_infinity s => (if s then "-" else "") ++ "∞"
  | S754_zero s => (if s then "-" else "") ++ "0"
  | S754_finite s m e =>
      let n := shown_thousandths (Zpos m) e in
      let frac := decimal (n mod 1000) in
      let frac := strip_trailing_zeros (zeros (3 - strlen frac) ++ frac) in
      (if s then "-" else "") ++ insert_separators (decimal (n / 1000))
      ++ (if (frac =? "")%string then "" else "." ++ frac)
  end.

(** *** Strings and truthiness *)

(** [xs.join(sep)] on an array of strings. *)
Definition Array_join (sep : string) (xs : list string) : string :=
  String.concat sep xs.

(** A value read from [import.meta.env]: [undefined] or a string. *)
Definition EnvVar : Type := option string.

(** ToBoolean: [undefined] and the empty string are falsy. *)
Definition truthy (v : EnvVar) : bool :=
  match v with
  | None => false
  | Some s => negb (s =? "")%string
  end.

(** [v || fallback] *)
Definition or_default (v : EnvVar) (fallback : string) : string :=
  match v with
  | Some s => if (s =? "")%string then fallback else s
  | None => fallback
  end.

(** ** Records of [types/upbit] *)

(** The interface declarations of [types/upbit] are not among the sources;
    the three records below are taken from the specification and from the
    field names the converters use. *)

Module MinuteCandle.
(** Modelled from the spec: the interface [MinuteCandle] of [types/upbit].
    A candle carries a timestamp, the open/high/low/close prices and the
    traded volume of one market in one time bucket; the record keeps the
    market and the fields the converter reads. *)
Record t := {
  market : string;
  candle_date_time_kst : string;
  opening_price : number;
  high_price : number;
  low_price : number;
  trade_price : number;
  candle_acc_trade_volume : number
}.
End MinuteCandle.

Module DayCandle.
(** Modelled from the spec: the interface [DayCandle] of [types/upbit],
    the day variant of a candle, with the same fields. *)
Record t := {
  market : string;
  candle_date_time_kst : string;
  opening_price : number;
  high_price : number;
  low_price : number;
  trade_price : number;
  candle_acc_trade_volume : number
}.
End DayCandle.

(** Modelled from the spec: the interface [CandleChartData] of
    [types/upbit], the normalized chart point {time, open, high, low,
    close, volume}. *)
Record CandleChartData := {
  time : string;
  open : number;
  high : number;
  low : number;
  close : number;
  volume : number
}.

(** ** Collaborators and effects *)

(** A value of a [params] object handed to axios. *)
Inductive QueryValue :=
| QString (s : string)
| QNumber (n : number)
| QUndefined.

(** What one [get] hands to the HTTP transport: the instance's base URL
    (none for the global [axios]), the path or URL, the query parameters
    and the headers. *)
Record AxiosRequest := {
  baseURL : option string;
  url : string;
  params : list (string * QueryValue);
  headers : list (string * string)
}.

(** The claim set signed for a private request. *)
Record Claims := {
  access_key : EnvVar;
  nonce : string
}.

Inductive Collaborator := Axios | Jose.

(** A thrown value: an [Error] built by this module with [new Error(message)],
    or whatever a collaborator rejected with. *)
Inductive Thrown :=
| JsError (message : string)
| Rejection (source : Collaborator) (detail : string).

Inductive Completion (A : Type) :=
| Returned (a : A)
| Threw (e : Thrown).
Arguments Returned {A} a.
Arguments Threw {A} e.

(** What has reached the collaborators so far: the HTTP requests issued,
    the claim sets handed to the signer, and how many identifiers were drawn
    from the uuid generator. The module itself keeps no state. *)
Record World := {
  http_log : list AxiosRequest;
  sign_log : list Claims;
  uuid_drawn : nat
}.

Definition initial_world : World :=
  {| http_log := []; sign_log := []; uuid_drawn := 0 |}.

(** An asynchronous computation, awaited to completion. *)
Definition Async (A : Type) : Type := World -> Completion A * World.

Definition ret {A} (a : A) : Async A := fun w => (Returned a, w).
Definition throw {A} (e : Thrown) : Async A := fun w => (Threw e, w).
Definition bind {A B} (c : Async A) (k : A -> Async B) : Async B :=
  fun w =>
    match c w with
    | (Returned a, w') => k a w'
    | (Threw e, w') => (Threw e, w')
    end.
Definition try_catch {A} (body : Async A) (handler : Thrown -> Async A) : Async A :=
  fun w =>
    match body w with
    | (Returned a, w') => (Returned a, w')
    | (Threw e, w') => handler e w'
    end.

Notation "x <- c ;; k" := (bind c (fun x => k))
  (at level 61, c at next level, right associativity).

(** [import.meta.env], read once when the module is loaded. *)
Record ImportMetaEnv := {
  VITE_UPBIT_API_URL : EnvVar;
  VITE_UPBIT_ACCESS_KEY : EnvVar;
  VITE_UPBIT_SECRET_KEY : EnvVar;
  DEV : bool
}.

(** The collaborators. The HTTP transport answers a request, given the
    requests issued before it, with the body of the response or a rejection;
    the signer turns a protected-header algorithm, a claim set and the key
    bytes into a compact token; the uuid generator yields its [i]-th
    identifier. *)
Record Host (Payload : Type) := {
  axios_adapter : list AxiosRequest -> AxiosRequest -> Completion Payload;
  jose_sign : string -> Claims -> string -> Completion string;
  uuid_source : nat -> string
}.
Arguments axios_adapter {Payload} h log req.
Arguments jose_sign {Payload} h alg payload secret.
Arguments uuid_source {Payload} h i.

Section UpbitApi.

(** The body of a response ([response.data]). *)
Variable Payload : Type.
Variable env : ImportMetaEnv.
Variable host : Host Payload.

Definition API_BASE_URL : string :=
  or_default (VITE_UPBIT_API_URL env) "https://api.upbit.com".
Definition ACCESS_KEY : EnvVar := VITE_UPBIT_ACCESS_KEY env.
Definition SECRET_KEY : EnvVar := VITE_UPBIT_SECRET_KEY env.

Definition USE_PROXY : bool := DEV env.
Definition PROXY_BASE_URL : string := "/api/upbit".

(** [axios.get]: the request is issued (logged), then the transport's
    answer is awaited; the result is [response.data]. *)
Definition axios_get (req : AxiosRequest) : Async Payload :=
  fun w =>
    (axios_adapter host (http_log w) req,
     {| http_log := (http_log w ++ [req])%list;
        sign_log := sign_log w;
        uuid_drawn := uuid_drawn w |}).

(** [publicClient.get(path, { params })] *)
Definition publicClient_get (path : string) (ps : list (string * QueryValue))
  : Async Payload :=
  axios_get {| baseURL := Some (if USE_PROXY then PROXY_BASE_URL else API_BASE_URL);
               url := path;
               params := ps;
               headers := [("Accept", "application/json")] |}.

(** [uuidv4()] *)
Definition uuidv4 : Async string :=
  fun w =>
    (Returned (uuid_source host (uuid_drawn w)),
     {| http_log := http_log w;
        sign_log := sign_log w;
        uuid_drawn := S (uuid_drawn w) |}).

(** [new jose.SignJWT(payload).setProtectedHeader({ alg }).sign(secret)] *)
Definition SignJWT_sign (alg : string) (payload : Claims) (secret : string)
  : Async string :=
  fun w =>
    (jose_sign host alg payload secret,
     {| http_log := http_log w;
        sign_log := (sign_log w ++ [payload])%list;
        uuid_drawn := uuid_drawn w |}).

(** [new TextEncoder().encode(v)] *)
Definition TextEncoder_encode (v : EnvVar) : string :=
  match v with
  | Some s => s
  | None => ""
  end.

Definition generateJWT (payload : Claims) : Async string :=
  if negb (truthy SECRET_KEY) then
    throw (JsError "UPBIT_SECRET_KEY is not configured")
  else
    let secret := TextEncoder_encode SECRET_KEY in
    jwt <- SignJWT_sign "HS256" payload secret ;;
    ret jwt.

Definition getAuthHeaders : Async (list (string * string)) :=
  if negb (truthy ACCESS_KEY) || negb (truthy SECRET_KEY) then
    throw (JsError "API 키가 설정되지 않았습니다. .env 파일을 확인해주세요.")
  else
    n <- uuidv4 ;;
    let payload := {| access_key := ACCESS_KEY; nonce := n |} in
    token <- generateJWT payload ;;
    ret [("Authorization", "Bearer " ++ token);
         ("Accept", "application/json")].

(** *** Quotation API (public) *)

Definition getMarkets : Async Payload :=
  response_data <- publicClient_get "/v1/market/all" [] ;;
  ret response_data.

(** A parameter with a default value: [undefined] selects the default. *)
Definition default_to (d : number) (arg : option number) : number :=
  match arg with
  | Some v => v
  | None => d
  end.

Definition getMinuteCandles (market : string) (unit_arg count_arg : option number)
  : Async Payload :=
  let unit := default_to (number_of_Z 1) unit_arg in
  let count := default_to (number_of_Z 200) count_arg in
  response_data <-
    publicClient_get ("/v1/candles/minutes/" ++ Number_toString unit)
      [("market", QString market); ("count", QNumber count)] ;;
  ret response_data.

Definition getDayCandles (market : string) (count_arg : option number)
    (convertingPriceUnit : option string) : Async Payload :=
  let count := default_to (number_of_Z 200) count_arg in
  response_data <-
    publicClient_get "/v1/candles/days"
      [("market", QString market);
       ("count", QNumber count);
       ("convertingPriceUnit",
        match convertingPriceUnit with
        | Some u => QString u
        | None => QUndefined
        end)] ;;
  ret response_data.

Definition getTicker (markets : list string) : Async Payload :=
  let marketsParam := Array_join "," markets in
  try_catch
    (response_data <-
       publicClient_get "/v1/ticker" [("markets", QString marketsParam)] ;;
     ret response_data)
    (fun error => throw error).

(** *** Exchange API (private) *)

Definition getAccounts : Async Payload :=
  try_catch
    (hs <- getAuthHeaders ;;
     let base := if USE_PROXY then PROXY_BASE_URL else API_BASE_URL in
     let target := base ++ "/v1/accounts" in
     response_data <-
       axios_get {| baseURL := None; url := target; params := []; headers := hs |} ;;
     ret response_data)
    (fun _ =>
       throw (JsError "계정 정보를 불러오는데 실패했습니다. API 키를 확인해주세요.")).

(** *** Sequences of calls *)

Inductive Call :=
| CallGetMarkets
| CallGetMinuteCandles (market : string) (unit_arg count_arg : option number)
| CallGetDayCandles (market : string) (count_arg : option number)
    (convertingPriceUnit : option string)
| CallGetTicker (markets : list string)
| CallGetAccounts.

Definition perform (c : Call) : Async Payload :=
  match c with
  | CallGetMarkets => getMarkets
  | CallGetMinuteCandles market u n => getMinuteCandles market u n
  | CallGetDayCandles market n cpu => getDayCandles market n cpu
  | CallGetTicker markets => getTicker markets
  | CallGetAccounts => getAccounts
  end.

(** The world after a sequence of calls, each awaited before the next. *)
Fixpoint run (calls : list Call) (w : World) : World :=
  match calls with
  | [] => w
  | c :: rest => run rest (snd (perform c w))
  end.

End UpbitApi.

Arguments axios_get {Payload} host req w.
Arguments publicClient_get {Payload} env host path ps w.
Arguments uuidv4 {Payload} host w.
Arguments SignJWT_sign {Payload} host alg payload secret w.
Arguments generateJWT {Payload} env host payload w.
Arguments getAuthHeaders {Payload} env host w.
Arguments getMarkets {Payload} env host w.
Arguments getMinuteCandles {Payload} env host market unit_arg count_arg w.
Arguments getDayCandles {Payload} env host market count_arg convertingPriceUnit w.
Arguments getTicker {Payload} env host markets w.
Arguments getAccounts {Payload} env host w.
Arguments perform {Payload} env host c w.
Arguments run {Payload} env host calls w.

(** ** Data conversion utilities *)

Definition convertMinuteCandleToChartData (candles : list MinuteCandle.t)
  : list CandleChartData :=
  map (fun candle =>
         {| time := MinuteCandle.candle_date_time_kst candle;
            open := MinuteCandle.opening_price candle;
            high := MinuteCandle.high_price candle;
            low := MinuteCandle.low_price candle;
            close := MinuteCandle.trade_price candle;
            volume := MinuteCandle.candle_acc_trade_volume candle |})
      candles.

Definition convertDayCandleToChartData (candles : list DayCandle.t)
  : list CandleChartData :=
  map (fun candle =>
         {| time := DayCandle.candle_date_time_kst candle;
            open := DayCandle.opening_price candle;
            high := DayCandle.high_price candle;
            low := DayCandle.low_price candle;
            close := DayCandle.trade_price candle;
            volume := DayCandle.candle_acc_trade_volume candle |})
      candles.

Definition formatPrice (price : number) : string :=
  Intl_NumberFormat_ko_KR_format (Math_round price).

Definition formatChangeRate (rate : number) : string :=
  (if js_ge rate (number_of_Z 0) then "+" else "")
  ++ Number_toFixed (js_mul rate (number_of_Z 100)) 2 ++ "%".

(** ** Vocabulary of the properties *)

Definition credentials_configured (env : ImportMetaEnv) : bool :=
  truthy (ACCESS_KEY env) && truthy (SECRET_KEY env).

(** The same environment with other credentials. *)
Definition with_credentials (env : ImportMetaEnv) (ak sk : EnvVar) : ImportMetaEnv :=
  {| VITE_UPBIT_API_URL := VITE_UPBIT_API_URL env;
     VITE_UPBIT_ACCESS_KEY := ak;
     VITE_UPBIT_SECRET_KEY := sk;
     DEV := DEV env |}.

(** The one error [getAccounts] lets out. *)
Definition accounts_error : Thrown :=
  JsError "계정 정보를 불러오는데 실패했습니다. API 키를 확인해주세요.".

(** The claim set a signing started in world [w] hands to the signer, and
    the request [getAccounts] issues once it holds a token. *)
Definition signing_claims {Payload} (env : ImportMetaEnv) (host : Host Payload)
    (w : World) : Claims :=
  {| access_key := ACCESS_KEY env; nonce := uuid_source host (uuid_drawn w) |}.

Definition accounts_request (env : ImportMetaEnv) (token : string) : AxiosRequest :=
  {| baseURL := None;
     url := (if USE_PROXY env then PROXY_BASE_URL else API_BASE_URL env) ++ "/v1/accounts";
     params := [];
     headers := [("Authorization", "Bearer " ++ token);
                 ("Accept", "application/json")] |}.

(** The three ways [getAccounts] can fail. *)
Inductive AccountsFailure {Payload} (env : ImportMetaEnv) (host : Host Payload)
    (w : World) : Prop :=
| MissingCredentials :
    credentials_configured env = false ->
    AccountsFailure env host w
| SigningFailure (cause : Thrown) :
    credentials_configured env = true ->
    jose_sign host "HS256" (signing_claims env host w)
      (TextEncoder_encode (SECRET_KEY env)) = Threw cause ->
    AccountsFailure env host w
| HttpFailure (token : string) (cause : Thrown) :
    credentials_configured env = true ->
    jose_sign host "HS256" (signing_claims env host w)
      (TextEncoder_encode (SECRET_KEY env)) = Returned token ->
    axios_adapter host (http_log w) (accounts_request env token) = Threw cause ->
    AccountsFailure env host w.

Definition is_public (c : Call) : bool :=
  match c with
  | CallGetAccounts => false
  | _ => true
  end.

(** The claim sets made of the access key and of each of the first [n]
    identifiers of the generator, in the order drawn. *)
Definition signed_draws {Payload} (env : ImportMetaEnv) (host : Host Payload)
    (n : nat) : list Claims :=
  map (fun i => {| access_key := ACCESS_KEY env; nonce := uuid_source host i |})
      (seq 0 n).

(** Two candles of the two variants that agree on the fields the
    converters read. *)
Definition same_chart_fields (m : MinuteCandle.t) (d : DayCandle.t) : Prop :=
  MinuteCandle.candle_date_time_kst m = DayCandle.candle_date_time_kst d
  /\ MinuteCandle.opening_price m = DayCandle.opening_price d
  /\ MinuteCandle.high_price m = DayCandle.high_price d
  /\ MinuteCandle.low_price m = DayCandle.low_price d
  /\ MinuteCandle.trade_price m = DayCandle.trade_price d
  /\ MinuteCandle.candle_acc_trade_volume m = DayCandle.candle_acc_trade_volume d.

(** *** Numbers and their renderings *)

(** A datum of [number] is a double when its mantissa and exponent are
    the canonical ones of binary64. *)
Definition is_double (x : number) : bool := valid_binary prec emax x.

Definition is_finite (x : number) : bool :=
  match x with
  | S754_zero _ | S754_finite _ _ _ => true
  | _ => false
  end.

Definition sign_bit (x : number) : bool :=
  match x with
  | S754_zero s | S754_infinity s | S754_finite s _ _ => s
  | S754_nan => false
  end.

(** [0 <= x] and [x < 0] as order relations on numbers. *)
Definition non_negative (x : number) : bool :=
  match x with
  | S754_nan => false
  | S754_zero _ => true
  | S754_infinity s | S754_finite s _ _ => negb s
  end.

Definition strictly_negative (x : number) : bool :=
  match x with
  | S754_infinity s | S754_finite s _ _ => s
  | _ => false
  end.

(** The magnitude of a finite number, as the fraction [num / den]. *)
Definition magnitude (x : number) : option (Z * Z) :=
  match x with
  | S754_zero _ => Some (0, 1)
  | S754_finite _ m e => Some (Zpos m * 2 ^ Z.max e 0, 2 ^ Z.max (- e) 0)
  | _ => None
  end.

Definition is_digit (c : ascii) : bool :=
  (48 <=? nat_of_ascii c)%nat && (nat_of_ascii c <=? 57)%nat.

Fixpoint all_digits (s : string) : bool :=
  match s with
  | EmptyString => true
  | String c rest => is_digit c && all_digits rest
  end.

(** [n] hundredths written as a numeral with two decimal places. *)
Definition two_decimals (n : Z) : string :=
  decimal (n / 100) ++ "."
  ++ String (digit_char (n / 10 mod 10)) (String (digit_char (n mod 10)) "").

(** [out] shows the percentage of [rate]: the product [rate * 100] to the
    nearest hundredth, with two decimal places and a percent sign, a minus
    sign when the product is negative, and a plus sign in front exactly
    when the rate is not negative. *)
Definition percentage_rendering (rate : number) (out : string) : Prop :=
  let product := js_mul rate (number_of_Z 100) in
  exists n : Z,
    0 <= n
    /\ (forall num den, magnitude product = Some (num, den) ->
          Z.abs (2 * (100 * num - n * den)) <= den)
    /\ out = (if non_negative rate then "+" else "")
             ++ (if strictly_negative product then "-" else "")
             ++ two_decimals n ++ "%".

(** [g] is [digits] cut into groups of three from the right, the groups
    separated by commas. *)
Definition thousands_grouped (g digits : string) : Prop :=
  exists (first : string) (others : list string),
    g = String.concat "," (first :: others)
    /\ digits = String.concat "" (first :: others)
    /\ (1 <= String.length first <= 3)%nat
    /\ Forall (fun group => String.length group = 3%nat) others.

(** [out] shows the integer nearest to [amount] with thousands separators,
    after a minus sign when the sign of [amount] is negative. *)
Definition price_rendering (amount : number) (out : string) : Prop :=
  exists (n : Z) (g : string),
    (forall num den, magnitude amount = Some (num, den) ->
       Z.abs (2 * (cond_Zopp (sign_bit amount) num - n * den)) <= den)
    /\ thousands_grouped g (decimal (Z.abs n))
    /\ out = (if sign_bit amount then "-" else "") ++ g.

(** Sample collaborators and environments, used to instantiate the
    properties on concrete runs. *)
Definition sample_env : ImportMetaEnv :=
  {| VITE_UPBIT_API_URL := None;
     VITE_UPBIT_ACCESS_KEY := Some "ak";
     VITE_UPBIT_SECRET_KEY := Some "sk";
     DEV := false |}.

Definition sample_env_no_secret : ImportMetaEnv :=
  with_credentials sample_env (Some "ak") None.

Definition offline_host : Host string :=
  {| axios_adapter := fun _ _ => Threw (Rejection Axios "ERR_NETWORK");
     jose_sign := fun _ c _ => Returned ("jwt." ++ nonce c);
     uuid_source := fun i => "uuid-" ++ repeat_char "x"%char i |}.

Definition sample_minute_candle : MinuteCandle.t :=
  {| MinuteCandle.market := "KRW-BTC";
     MinuteCandle.candle_date_time_kst := "2024-01-01T09:00:00";
     MinuteCandle.opening_price := number_of_Z 100;
     MinuteCandle.high_price := number_of_Z 120;
     MinuteCandle.low_price := number_of_Z 90;
     MinuteCandle.trade_price := number_of_Z 110;
     MinuteCandle.candle_acc_trade_volume := decimal_literal 15 1 |}.

Definition sample_day_candle : DayCandle.t :=
  {| DayCandle.market := "KRW-ETH";
     DayCandle.candle_date_time_kst := "2024-01-01T09:00:00";
     DayCandle.opening_price := number_of_Z 100;
     DayCandle.high_price := number_of_Z 120;
     DayCandle.low_price := number_of_Z 90;
     DayCandle.trade_price := number_of_Z 110;
     DayCandle.candle_acc_trade_volume := decimal_literal 15 1 |}.

(** *** Requests of a run *)

(** The base every request is sent to: the proxy path in development, the
    configured API root otherwise. *)
Definition effective_base (env : ImportMetaEnv) : string :=
  if USE_PROXY env then PROXY_BASE_URL else API_BASE_URL env.

(** The paths of the quotation API. *)
Definition public_path (path : string) : Prop :=
  path = "/v1/market/all"
  \/ path = "/v1/candles/days"
  \/ path = "/v1/ticker"
  \/ exists unit : number, path = "/v1/candles/minutes/" ++ Number_toString unit.

(** A request of the public client: its base, a public path and no header
    but [Accept]. *)
Definition public_request (env : ImportMetaEnv) (req : AxiosRequest) : Prop :=
  baseURL req = Some (effective_base env)
  /\ headers req = [("Accept", "application/json")]
  /\ public_path (url req).

(** An account request whose bearer token the signer returned for one of
    the claim sets in [signed], made with the configured access key. *)
Definition signed_request {Payload} (env : ImportMetaEnv) (host : Host Payload)
    (signed : list Claims) (req : AxiosRequest) : Prop :=
  exists claims token,
    In claims signed
    /\ access_key claims = ACCESS_KEY env
    /\ jose_sign host "HS256" claims (TextEncoder_encode (SECRET_KEY env))
       = Returned token
    /\ req = accounts_request env token.

(** Every request in the log of [w] is a public request or a signed
    account request. *)
Definition requests_accounted {Payload} (env : ImportMetaEnv) (host : Host Payload)
    (w : World) : Prop :=
  Forall (fun req => public_request env req
                     \/ signed_request env host (sign_log w) req)
         (http_log w).

(** A request that goes to the base [b]: through a client whose base URL
    is [b], or to the absolute URL of the accounts endpoint under [b]. *)
Definition sent_to (b : string) (req : AxiosRequest) : Prop :=
  baseURL req = Some b
  \/ (baseURL req = None /\ url req = b ++ "/v1/accounts").

(** The request [getTicker] issues for a list of markets. *)
Definition ticker_request (env : ImportMetaEnv) (markets : list string) : AxiosRequest :=
  {| baseURL := Some (effective_base env);
     url := "/v1/ticker";
     params := [("markets", QString (String.concat "," markets))];
     headers := [("Accept", "application/json")] |}.

(** A string without a comma. *)
Fixpoint comma_free (s : string) : bool :=
  match s with
  | EmptyString => true
  | String c rest => negb (Ascii.eqb c ","%char) && comma_free rest
  end.

(** Two minute candles, or two day candles, with the same six chart
    fields. *)
Definition same_minute_chart_fields (a b : MinuteCandle.t) : Prop :=
  MinuteCandle.candle_date_time_kst a = MinuteCandle.candle_date_time_kst b
  /\ MinuteCandle.opening_price a = MinuteCandle.opening_price b
  /\ MinuteCandle.high_price a = MinuteCandle.high_price b
  /\ MinuteCandle.low_price a = MinuteCandle.low_price b
  /\ MinuteCandle.trade_price a = MinuteCandle.trade_price b
  /\ MinuteCandle.candle_acc_trade_volume a = MinuteCandle.candle_acc_trade_volume b.

Definition same_day_chart_fields (a b : DayCandle.t) : Prop :=
  DayCandle.candle_date_time_kst a = DayCandle.candle_date_time_kst b
  /\ DayCandle.opening_price a = DayCandle.opening_price b
  /\ DayCandle.high_price a = DayCandle.high_price b
  /\ DayCandle.low_price a = DayCandle.low_price b
  /\ DayCandle.trade_price a = DayCandle.trade_price b
  /\ DayCandle.candle_acc_trade_volume a = DayCandle.candle_acc_trade_volume b.

(** *** Reading a price back *)

Definition digit_value (c : ascii) : option Z :=
  if is_digit c then Some (Z.of_nat (nat_of_ascii c) - 48) else None.

Fixpoint parse_digits (s : string) (acc : Z) : option Z :=
  match s with
  | EmptyString => Some acc
  | String c rest =>
      match digit_value c with
      | Some d => parse_digits rest (10 * acc + d)
      | None => None
      end
  end.

(** The natural number a non-empty string of decimal digits denotes. *)
Definition parse_decimal (s : string) : option Z :=
  match s with
  | EmptyString => None
  | _ => parse_digits s 0
  end.

Fixpoint remove_commas (s : string) : string :=
  match s with
  | EmptyString => EmptyString
  | String c rest =>
      if Ascii.eqb c ","%char then remove_commas rest
      else String c (remove_commas rest)
  end.

(** The integer a grouped numeral denotes: an optional minus sign, then
    digits with commas between them. *)
Definition parse_price (s : string) : option Z :=
  match s with
  | String c rest =>
      if Ascii.eqb c "-"%char
      then option_map Z.opp (parse_decimal (remove_commas rest))
      else parse_decimal (remove_commas s)
  | EmptyString => None
  end.

(** [floor (x + 1/2)] for a finite number. *)
Definition round_half_up (x : number) : option Z :=
  match x with
  | S754_zero _ => Some 0
  | S754_finite s m e =>
      Some ((2 * cond_Zopp s (Z.pos m * 2 ^ Z.max e 0) + 2 ^ Z.max (- e) 0)
            / (2 * 2 ^ Z.max (- e) 0))
  | _ => None
  end.

(** *** More sample collaborators *)

Definition online_host : Host string :=
  {| axios_adapter := fun _ _ => Returned "[]";
     jose_sign := fun _ c _ => Returned ("jwt." ++ nonce c);
     uuid_source := fun i => "uuid-" ++ repeat_char "x"%char i |}.

Definition unsigning_host : Host string :=
  {| axios_adapter := fun _ _ => Returned "[]";
     jose_sign := fun _ _ _ => Threw (Rejection Jose "ERR_JWS_INVALID");
     uuid_source := fun i => "uuid-" ++ repeat_char "x"%char i |}.

(** ** The coin grid section (CoinsSection)

    The component keeps three state hooks and two handlers; the second
    handler leaves a timer behind. The embedding keeps the state, the
    handlers and the order in which clicks, closings and timers happen;
    layout, styling and animation are left out. The coin records and the
    mock data ([types/crypto], [utils/mockData]) are not among the sources
    and are parameters. *)

(** A state value that may be [null] or [undefined]. *)
Inductive Nullable (A : Type) :=
| Null
| Undefined
| Value (a : A).
Arguments Null {A}.
Arguments Undefined {A}.
Arguments Value {A} a.

Section CoinsSection.

Variable CoinData : Type.
Variable HistoricalInvestment : Type.
(** [coin.id] *)
Variable coin_id : CoinData -> string.
Variable MOCK_COINS : list CoinData.
(** [HISTORICAL_DATA[key]]: [None] when the object has no such key. *)
Variable HISTORICAL_DATA : string -> option HistoricalInvestment.

(** The three [useState] hooks. *)
Record CoinsSectionState := {
  selectedCoin : Nullable CoinData;
  selectedHistoricalData : Nullable HistoricalInvestment;
  isModalOpen : bool
}.

(** The mounted component: its state and the callbacks handed to
    [setTimeout] that have not run yet, oldest first. *)
Record Mounted := {
  hooks : CoinsSectionState;
  timers : list (CoinsSectionState -> CoinsSectionState)
}.

Definition setSelectedCoin (v : Nullable CoinData) (st : CoinsSectionState)
  : CoinsSectionState :=
  {| selectedCoin := v;
     selectedHistoricalData := selectedHistoricalData st;
     isModalOpen := isModalOpen st |}.

Definition setSelectedHistoricalData (v : Nullable HistoricalInvestment)
    (st : CoinsSectionState) : CoinsSectionState :=
  {| selectedCoin := selectedCoin st;
     selectedHistoricalData := v;
     isModalOpen := isModalOpen st |}.

Definition setIsModalOpen (v : bool) (st : CoinsSectionState) : CoinsSectionState :=
  {| selectedCoin := selectedCoin st;
     selectedHistoricalData := selectedHistoricalData st;
     isModalOpen := v |}.

(** [useState(null)], [useState(null)], [useState(false)] *)
Definition mounted : Mounted :=
  {| hooks := {| selectedCoin := Null;
                 selectedHistoricalData := Null;
                 isModalOpen := false |};
     timers := [] |}.

Definition handleCoinClick (coin : CoinData) (c : Mounted) : Mounted :=
  let historicalData :=
    match HISTORICAL_DATA (coin_id coin) with
    | Some h => Value h
    | None => Undefined
    end in
  {| hooks := setIsModalOpen true
                (setSelectedHistoricalData historicalData
                   (setSelectedCoin (Value coin) (hooks c)));
     timers := timers c |}.

Definition handleCloseModal (c : Mounted) : Mounted :=
  {| hooks := setIsModalOpen false (hooks c);
     timers := (timers c
                ++ [fun st => setSelectedHistoricalData Null (setSelectedCoin Null st)])%list |}.

(** The oldest pending timer runs. *)
Definition fire_timer (c : Mounted) : Mounted :=
  match timers c with
  | [] => c
  | callback :: rest => {| hooks := callback (hooks c); timers := rest |}
  end.

(** What can happen to the rendered section: the card at some position of
    the grid (one card per element of [MOCK_COINS], in order) is clicked,
    the modal asks to be closed, a timer runs. *)
Inductive SectionEvent :=
| CardClicked (index : nat)
| ModalClosed
| TimerFired.

Definition section_step (c : Mounted) (ev : SectionEvent) : Mounted :=
  match ev with
  | CardClicked index =>
      match nth_error MOCK_COINS index with
      | Some coin => handleCoinClick coin c
      | None => c
      end
  | ModalClosed => handleCloseModal c
  | TimerFired => fire_timer c
  end.

Definition section_run (events : list SectionEvent) (c : Mounted) : Mounted :=
  fold_left section_step events c.

(** No coin and no historical data are selected. *)
Definition nothing_selected (st : CoinsSectionState) : Prop :=
  selectedCoin st = Null /\ selectedHistoricalData st = Null.

(** Every pending timer clears the selection and leaves the modal as it
    is; and when the modal is closed with no timer pending, nothing is
    selected. *)
Definition settled (c : Mounted) : Prop :=
  Forall (fun callback : CoinsSectionState -> CoinsSectionState =>
            forall st, nothing_selected (callback st)
                       /\ isModalOpen (callback st) = isModalOpen st)
         (timers c)
  /\ (isModalOpen (hooks c) = false -> timers c = [] -> nothing_selected (hooks c)).

End CoinsSection.

Arguments selectedCoin {CoinData HistoricalInvestment} c.
Arguments selectedHistoricalData {CoinData HistoricalInvestment} c.
Arguments isModalOpen {CoinData HistoricalInvestment} c.
Arguments hooks {CoinData HistoricalInvestment} m.
Arguments timers {CoinData HistoricalInvestment} m.
Arguments mounted {CoinData HistoricalInvestment}.
Arguments handleCoinClick {CoinData HistoricalInvestment} coin_id HISTORICAL_DATA coin c.
Arguments handleCloseModal {CoinData HistoricalInvestment} c.
Arguments fire_timer {CoinData HistoricalInvestment} c.
Arguments section_step {CoinData HistoricalInvestment} coin_id MOCK_COINS HISTORICAL_DATA c ev.
Arguments section_run {CoinData HistoricalInvestment} coin_id MOCK_COINS HISTORICAL_DATA events c.
Arguments nothing_selected {CoinData HistoricalInvestment} st.
Arguments settled {CoinData HistoricalInvestment} c.

(** Sample mock data. *)
Definition sample_coins : list string := ["bitcoin"; "ethereum"].
Definition sample_history (key : string) : option Z :=
  if (key =? "bitcoin")%string then Some 2010 else None.

(** ** The model on concrete values *)

Example Number_toString_samples :
  map Number_toString
    [number_of_Z 1; number_of_Z 200; decimal_literal 5 1; decimal_literal 1 1;
     js_neg (decimal_literal 435 2); number_of_Z (10 ^ 21); number_of_Z (2 ^ 53);
     decimal_literal 1 6; decimal_literal 1 7; S754_finite false 1 (-1074);
     S754_nan; S754_infinity true; S754_zero true]
  = ["1"; "200"; "0.5"; "0.1"; "-4.35"; "1e+21"; "9007199254740992";
     "0.000001"; "1e-7"; "5e-324"; "NaN"; "-Infinity"; "0"].
Proof. vm_compute. reflexivity. Qed.

Example Number_toFixed_samples :
  map (fun x => Number_toFixed x 2)
    [decimal_literal 1005 3; js_neg (decimal_literal 1 3); S754_zero true;
     decimal_literal 25 1; number_of_Z (10 ^ 21)]
  = ["1.00"; "-0.00"; "0.00"; "2.50"; "1e+21"].
Proof. vm_compute. reflexivity. Qed.

Example Math_round_samples :
  map Math_round
    [decimal_literal 25 1; js_neg (decimal_literal 25 1); decimal_literal 4 1;
     js_neg (decimal_literal 5 1); S754_nan]
  = [number_of_Z 3; number_of_Z (-2); S754_zero false; S754_zero true; S754_nan].
Proof. vm_compute. reflexivity. Qed.

Example Intl_NumberFormat_samples :
  map Intl_NumberFormat_ko_KR_format
    [number_of_Z 1234567; decimal_literal 12345678 4; decimal_literal 5 1;
     number_of_Z (2 ^ 53 - 1); number_of_Z (2 ^ 53); number_of_Z (2 ^ 56);
     number_of_Z (2 ^ 64); number_of_Z (10 ^ 23); S754_zero true;
     S754_infinity true; S754_nan]
  = ["1,234,567"; "1,234.568"; "0.5";
     "9,007,199,254,740,991"; "9,007,199,254,740,992";
     "72,057,594,037,927,940"; "18,446,744,073,709,552,000";
     "100,000,000,000,000,000,000,000"; "-0"; "-∞"; "NaN"].
Proof. vm_compute. reflexivity. Qed.

Example formatPrice_samples :
  map formatPrice
    [number_of_Z 0; number_of_Z 999; number_of_Z 1000; decimal_literal 12345676 1;
     number_of_Z (-1234567); js_neg (decimal_literal 4 1); number_of_Z (2 ^ 56)]
  = ["0"; "999"; "1,000"; "1,234,568"; "-1,234,567"; "-0";
     "72,057,594,037,927,940"].
Proof. vm_compute. reflexivity. Qed.

Example formatChangeRate_samples :
  map formatChangeRate
    [decimal_literal 523 4; js_neg (decimal_literal 1 2); number_of_Z 0;
     S754_zero true; js_neg (decimal_literal 1 5); number_of_Z 1]
  = ["+5.23%"; "-1.00%"; "+0.00%"; "+0.00%"; "-0.00%"; "+100.00%"].
Proof. vm_compute. reflexivity. Qed.

Example getMinuteCandles_default_request :
  http_log (snd (getMinuteCandles sample_env offline_host "KRW-BTC" None None
                   initial_world))
  = [{| baseURL := Some "https://api.upbit.com";
        url := "/v1/candles/minutes/1";
        params := [("market", QString "KRW-BTC"); ("count", QNumber (number_of_Z 200))];
        headers := [("Accept", "application/json")] |}].
Proof. vm_compute. reflexivity. Qed.

Example getAccounts_offline :
  getAccounts sample_env offline_host initial_world
  = (Threw accounts_error,
     {| http_log := [{| baseURL := None;
                        url := "https://api.upbit.com/v1/accounts";
                        params := [];
                        headers := [("Authorization", "Bearer jwt.uuid-");
                                    ("Accept", "application/json")] |}];
        sign_log := [{| access_key := Some "ak"; nonce := "uuid-" |}];
        uuid_drawn := 1 |}).
Proof. vm_compute. reflexivity. Qed.

(** ** Properties of the client *)

Section ClientProperties.

Variable Payload : Type.
Variable env : ImportMetaEnv.
Variable host : Host Payload.

Lemma credentials_configured_true :
  credentials_configured env = true ->
  truthy (ACCESS_KEY env) = true /\ truthy (SECRET_KEY env) = true.
Proof. unfold credentials_configured. apply andb_true_iff. Qed.

Lemma credentials_configured_false :
  credentials_configured env = false ->
  negb (truthy (ACCESS_KEY env)) || negb (truthy (SECRET_KEY env)) = true.
Proof.
  unfold credentials_configured.
  destruct (truthy (ACCESS_KEY env)), (truthy (SECRET_KEY env)); simpl; congruence.
Qed.

(** Without both keys the signing path stops at its guard and leaves the
    world as it was. *)
Lemma getAuthHeaders_unconfigured (w : World) :
  credentials_configured env = false ->
  exists e, getAuthHeaders env host w = (Threw e, w).
Proof.
  intros H. unfold getAuthHeaders.
  rewrite (credentials_configured_false H). eexists. reflexivity.
Qed.

(** With both keys the signing path draws one identifier, signs the claim
    set built from it and advances the generator. *)
Lemma getAuthHeaders_configured (w : World) :
  credentials_configured env = true ->
  getAuthHeaders env host w =
    (match jose_sign host "HS256" (signing_claims env host w)
             (TextEncoder_encode (SECRET_KEY env)) with
     | Returned token =>
         Returned [("Authorization", "Bearer " ++ token);
                   ("Accept", "application/json")]
     | Threw e => Threw e
     end,
     {| http_log := http_log w;
        sign_log := (sign_log w ++ [signing_claims env host w])%list;
        uuid_drawn := S (uuid_drawn w) |}).
Proof.
  intros H. destruct (credentials_configured_true H) as [Ha Hs].
  unfold getAuthHeaders, generateJWT, bind, uuidv4, SignJWT_sign, ret.
  rewrite Ha, Hs. cbn [negb orb uuid_drawn sign_log http_log].
  fold (signing_claims env host w).
  destruct (jose_sign host "HS256" _ _); reflexivity.
Qed.

(** The completion of [getAccounts], case by case. *)
Lemma getAccounts_outcome (w : World) :
  fst (getAccounts env host w) =
    if credentials_configured env then
      match jose_sign host "HS256" (signing_claims env host w)
              (TextEncoder_encode (SECRET_KEY env)) with
      | Returned token =>
          match axios_adapter host (http_log w) (accounts_request env token) with
          | Returned d => Returned d
          | Threw _ => Threw accounts_error
          end
      | Threw _ => Threw accounts_error
      end
    else Threw accounts_error.
Proof.
  unfold getAccounts, try_catch, bind.
  destruct (credentials_configured env) eqn:Hc.
  - rewrite (getAuthHeaders_configured w Hc).
    destruct (jose_sign host "HS256" _ _) as [token | e]; [| reflexivity].
    unfold axios_get, ret. cbn [http_log].
    fold (accounts_request env token).
    destruct (axios_adapter host (http_log w) _); reflexivity.
  - destruct (getAuthHeaders_unconfigured w Hc) as [e He].
    rewrite He. reflexivity.
Qed.

(** C1. Whatever makes [getAccounts] fail (a missing key, a rejected
    signature, a rejected or failed HTTP request), the caller gets the same
    error with the same fixed message; and every error [getAccounts] raises
    is that one and comes from one of these three causes. *)
Theorem getAccounts_failure_is_generic (w : World) :
  (AccountsFailure env host w ->
   fst (getAccounts env host w) = Threw accounts_error)
  /\ (forall e, fst (getAccounts env host w) = Threw e ->
        e = accounts_error /\ AccountsFailure env host w).
Proof.
  rewrite getAccounts_outcome. split.
  - intros [Hc | cause Hc Hs | token cause Hc Hs Hh]; rewrite Hc; [reflexivity | |].
    + rewrite Hs. reflexivity.
    + rewrite Hs, Hh. reflexivity.
  - intros e.
    destruct (credentials_configured env) eqn:Hc.
    + destruct (jose_sign host "HS256" _ _) as [token | cause] eqn:Hs.
      * destruct (axios_adapter host (http_log w) _) as [d | cause] eqn:Hh.
        -- discriminate.
        -- intros [= <-]. split; [reflexivity |].
           exact (HttpFailure env host w token cause Hc Hs Hh).
      * intros [= <-]. split; [reflexivity |].
        exact (SigningFailure env host w cause Hc Hs).
    + intros [= <-]. split; [reflexivity |].
      exact (MissingCredentials env host w Hc).
Qed.

(** C2. When the access key or the secret key is missing, [getAccounts]
    fails with its error and leaves the world untouched: no HTTP request
    (and no signature, no identifier) was issued. The public operations do
    not look at the credentials: they behave the same under any other
    pair of keys. *)
Theorem getAccounts_unconfigured_no_request (w : World) :
  (truthy (ACCESS_KEY env) = false \/ truthy (SECRET_KEY env) = false ->
   getAccounts env host w = (Threw accounts_error, w)
   /\ http_log (snd (getAccounts env host w)) = http_log w)
  /\ (forall ak sk c, is_public c = true ->
        perform (with_credentials env ak sk) host c w = perform env host c w).
Proof.
  split.
  - intros H.
    assert (Hc : credentials_configured env = false).
    { unfold credentials_configured.
      destruct H as [-> | ->]; [reflexivity | apply andb_false_r]. }
    assert (Hg : getAccounts env host w = (Threw accounts_error, w)).
    { unfold getAccounts, try_catch, bind.
      destruct (getAuthHeaders_unconfigured w Hc) as [e ->]. reflexivity. }
    rewrite Hg. split; reflexivity.
  - intros ak sk [| market u n | market n cpu | markets |] Hp;
      [reflexivity | reflexivity | reflexivity | reflexivity | discriminate].
Qed.

(** C3. [getTicker] issues exactly one request: the log grows by one entry,
    a GET of [/v1/ticker] whose only query parameter is [markets], bound to
    the elements of the list in order with a comma between neighbours; for
    the list [A, B] the value is [A,B]. *)
Theorem getTicker_one_joined_request :
  (forall (markets : list string) (w : World),
     exists req,
       http_log (snd (getTicker env host markets w)) = (http_log w ++ [req])%list
       /\ url req = "/v1/ticker"
       /\ params req = [("markets", QString (String.concat "," markets))])
  /\ (forall w : World,
        exists req,
          http_log (snd (getTicker env host ["A"; "B"] w)) = (http_log w ++ [req])%list
          /\ url req = "/v1/ticker"
          /\ params req = [("markets", QString "A,B")]).
Proof.
  assert (H : forall markets w, exists req,
             http_log (snd (getTicker env host markets w)) = (http_log w ++ [req])%list
             /\ url req = "/v1/ticker"
             /\ params req = [("markets", QString (String.concat "," markets))]).
  { intros markets w. eexists.
    unfold getTicker, try_catch, bind, publicClient_get, axios_get.
    destruct (axios_adapter host (http_log w) _); cbn [snd http_log ret throw];
      (split; [reflexivity |]); cbn [url params]; unfold Array_join;
      split; reflexivity. }
  split; [exact H |].
  intros w. exact (H ["A"; "B"] w).
Qed.

(** Every public call issues one request and completes the way the
    transport answered it. *)
Lemma public_call_outcome (c : Call) (w : World) :
  is_public c = true ->
  exists req,
    http_log (snd (perform env host c w)) = (http_log w ++ [req])%list
    /\ sign_log (snd (perform env host c w)) = sign_log w
    /\ uuid_drawn (snd (perform env host c w)) = uuid_drawn w
    /\ fst (perform env host c w) = axios_adapter host (http_log w) req.
Proof.
  destruct c as [| market u n | market n cpu | markets |]; intros Hp;
    try discriminate; eexists;
    unfold perform, getMarkets, getMinuteCandles, getDayCandles, getTicker,
      try_catch, bind, publicClient_get, axios_get;
    destruct (axios_adapter host (http_log w) _) eqn:Ha;
    cbn [fst snd http_log sign_log uuid_drawn ret throw];
    rewrite ?Ha; repeat split; reflexivity.
Qed.

(** C6. Each public operation issues exactly one request, and the error
    the transport rejects that request with is the error the caller gets,
    the very same value: the call throws [e] exactly when the transport
    answered its one request by throwing [e]. *)
Theorem public_call_propagates_transport_error (c : Call) (w : World) :
  is_public c = true ->
  exists req,
    http_log (snd (perform env host c w)) = (http_log w ++ [req])%list
    /\ forall e,
         fst (perform env host c w) = Threw e
         <-> axios_adapter host (http_log w) req = Threw e.
Proof.
  intros Hp.
  destruct (public_call_outcome c w Hp) as (req & Hl & _ & _ & Hr).
  exists req. split; [exact Hl |].
  intros e. rewrite Hr. reflexivity.
Qed.

(** *** Nonces *)

Lemma getAccounts_world (w : World) :
  snd (getAccounts env host w) = w
  \/ (sign_log (snd (getAccounts env host w))
        = (sign_log w ++ [signing_claims env host w])%list
      /\ uuid_drawn (snd (getAccounts env host w)) = S (uuid_drawn w)).
Proof.
  unfold getAccounts, try_catch, bind.
  destruct (credentials_configured env) eqn:Hc.
  - right. rewrite (getAuthHeaders_configured w Hc).
    destruct (jose_sign host "HS256" _ _) as [token | e].
    + unfold axios_get, ret.
      destruct (axios_adapter host _ _); split; reflexivity.
    + split; reflexivity.
  - left. destruct (getAuthHeaders_unconfigured w Hc) as [e ->]. reflexivity.
Qed.

Lemma signed_draws_S (n : nat) :
  signed_draws env host (S n)
  = (signed_draws env host n
     ++ [{| access_key := ACCESS_KEY env; nonce := uuid_source host n |}])%list.
Proof. unfold signed_draws. rewrite seq_S, map_app. reflexivity. Qed.

Lemma map_nonce_signed_draws (n : nat) :
  map nonce (signed_draws env host n) = map (uuid_source host) (seq 0 n).
Proof. unfold signed_draws. rewrite map_map. reflexivity. Qed.

(** The signer has been handed the draws made so far, one claim set per
    draw, in the order drawn: a call keeps it so. *)
Lemma perform_signs_its_draw (c : Call) (w : World) :
  sign_log w = signed_draws env host (uuid_drawn w) ->
  sign_log (snd (perform env host c w))
  = signed_draws env host (uuid_drawn (snd (perform env host c w))).
Proof.
  intros Hw. destruct (is_public c) eqn:Hp.
  - destruct (public_call_outcome c w Hp) as (req & _ & Hs & Hu & _).
    rewrite Hs, Hu. exact Hw.
  - destruct c; try discriminate. cbn [perform].
    destruct (getAccounts_world w) as [-> | [Hs Hu]]; [exact Hw |].
    rewrite Hs, Hu, signed_draws_S, Hw. reflexivity.
Qed.

Lemma run_signs_its_draws (calls : list Call) (w : World) :
  sign_log w = signed_draws env host (uuid_drawn w) ->
  sign_log (run env host calls w)
  = signed_draws env host (uuid_drawn (run env host calls w)).
Proof.
  revert w. induction calls as [| c rest IH]; intros w Hw; [exact Hw |].
  cbn [run]. apply IH, perform_signs_its_draw, Hw.
Qed.


End ClientProperties.

Lemma getAccounts_failure_is_generic_witness :
  AccountsFailure sample_env_no_secret offline_host initial_world
  /\ fst (getAccounts sample_env_no_secret offline_host initial_world)
     = Threw accounts_error
  /\ (accounts_error = accounts_error
      /\ AccountsFailure sample_env_no_secret offline_host initial_world).
Proof.
  pose proof (getAccounts_failure_is_generic string sample_env_no_secret
                offline_host initial_world) as [H1 H2].
  assert (Hf : AccountsFailure sample_env_no_secret offline_host initial_world).
  { apply MissingCredentials. reflexivity. }
  split; [exact Hf |]. split; [exact (H1 Hf) |].
  apply H2. reflexivity.
Defined.

Lemma getAccounts_unconfigured_no_request_witness :
  (truthy (ACCESS_KEY sample_env_no_secret) = false
   \/ truthy (SECRET_KEY sample_env_no_secret) = false)
  /\ getAccounts sample_env_no_secret offline_host initial_world
     = (Threw accounts_error, initial_world)
  /\ http_log (snd (getAccounts sample_env_no_secret offline_host initial_world)) = []
  /\ is_public CallGetMarkets = true
  /\ perform sample_env offline_host CallGetMarkets initial_world
     = perform sample_env_no_secret offline_host CallGetMarkets initial_world.
Proof.
  pose proof (getAccounts_unconfigured_no_request string sample_env_no_secret
                offline_host initial_world) as [H1 H2].
  assert (Hm : truthy (ACCESS_KEY sample_env_no_secret) = false
               \/ truthy (SECRET_KEY sample_env_no_secret) = false).
  { right. reflexivity. }
  assert (Hp : is_public CallGetMarkets = true) by reflexivity.
  split; [exact Hm |]. destruct (H1 Hm) as [Ha Hb].
  split; [exact Ha |]. split; [exact Hb |]. split; [exact Hp |].
  exact (H2 (Some "ak") (Some "sk") CallGetMarkets Hp).
Defined.

Lemma public_call_propagates_transport_error_witness :
  is_public (CallGetTicker ["KRW-BTC"; "KRW-ETH"]) = true
  /\ http_log (snd (perform sample_env_no_secret offline_host
                      (CallGetTicker ["KRW-BTC"; "KRW-ETH"]) initial_world))
     = [{| baseURL := Some "https://api.upbit.com";
           url := "/v1/ticker";
           params := [("markets", QString "KRW-BTC,KRW-ETH")];
           headers := [("Accept", "application/json")] |}]
  /\ fst (perform sample_env_no_secret offline_host
                  (CallGetTicker ["KRW-BTC"; "KRW-ETH"]) initial_world)
     = Threw (Rejection Axios "ERR_NETWORK").
Proof.
  split; [reflexivity |]. split; [reflexivity |].
  destruct (public_call_propagates_transport_error string sample_env_no_secret
              offline_host (CallGetTicker ["KRW-BTC"; "KRW-ETH"]) initial_world
              eq_refl) as (req & Hl & He).
  apply He. cbn in Hl. injection Hl as <-. reflexivity.
Defined.


(** ** Properties of the converters *)

(** C4. Both converters return one point per candle, in the same order:
    the lengths agree and the point at index [i] carries the KST timestamp,
    the opening, high and low prices, the trade price as [close] and the
    accumulated trade volume of the candle at index [i]. *)
Theorem convert_candles_pointwise :
  (forall candles : list MinuteCandle.t,
     List.length (convertMinuteCandleToChartData candles) = List.length candles
     /\ forall i candle, nth_error candles i = Some candle ->
          exists point,
            nth_error (convertMinuteCandleToChartData candles) i = Some point
            /\ time point = MinuteCandle.candle_date_time_kst candle
            /\ open point = MinuteCandle.opening_price candle
            /\ high point = MinuteCandle.high_price candle
            /\ low point = MinuteCandle.low_price candle
            /\ close point = MinuteCandle.trade_price candle
            /\ volume point = MinuteCandle.candle_acc_trade_volume candle)
  /\ (forall candles : list DayCandle.t,
        List.length (convertDayCandleToChartData candles) = List.length candles
        /\ forall i candle, nth_error candles i = Some candle ->
             exists point,
               nth_error (convertDayCandleToChartData candles) i = Some point
               /\ time point = DayCandle.candle_date_time_kst candle
               /\ open point = DayCandle.opening_price candle
               /\ high point = DayCandle.high_price candle
               /\ low point = DayCandle.low_price candle
               /\ close point = DayCandle.trade_price candle
               /\ volume point = DayCandle.candle_acc_trade_volume candle).
Proof.
  split; intros candles;
    (split; [apply length_map |]);
    intros i candle Hi; eexists;
    (split; [unfold convertMinuteCandleToChartData, convertDayCandleToChartData;
             rewrite nth_error_map, Hi; reflexivity |]);
    repeat split; reflexivity.
Qed.

(** C9. On candles that carry the same six fields the two converters give
    the same list of chart points. *)
Theorem converters_agree (minutes : list MinuteCandle.t) (days : list DayCandle.t) :
  Forall2 same_chart_fields minutes days ->
  convertMinuteCandleToChartData minutes = convertDayCandleToChartData days.
Proof.
  induction 1 as [| m d ms ds (Ht & Ho & Hh & Hl & Hc & Hv) _ IH]; [reflexivity |].
  cbn [convertMinuteCandleToChartData convertDayCandleToChartData map].
  f_equal; [| exact IH].
  rewrite Ht, Ho, Hh, Hl, Hc, Hv. reflexivity.
Qed.

Lemma convert_candles_pointwise_witness :
  nth_error [sample_minute_candle] 0 = Some sample_minute_candle
  /\ (exists point,
        nth_error (convertMinuteCandleToChartData [sample_minute_candle]) 0 = Some point
        /\ time point = "2024-01-01T09:00:00"
        /\ open point = MinuteCandle.opening_price sample_minute_candle
        /\ high point = MinuteCandle.high_price sample_minute_candle
        /\ low point = MinuteCandle.low_price sample_minute_candle
        /\ close point = number_of_Z 110
        /\ volume point = MinuteCandle.candle_acc_trade_volume sample_minute_candle).
Proof.
  split; [reflexivity |].
  apply (proj2 (proj1 convert_candles_pointwise [sample_minute_candle])
           0%nat sample_minute_candle).
  reflexivity.
Defined.

Lemma converters_agree_witness :
  Forall2 same_chart_fields [sample_minute_candle] [sample_day_candle]
  /\ convertMinuteCandleToChartData [sample_minute_candle]
     = convertDayCandleToChartData [sample_day_candle].
Proof.
  assert (H : Forall2 same_chart_fields [sample_minute_candle] [sample_day_candle]).
  { repeat constructor. }
  split; [exact H | exact (converters_agree _ _ H)].
Defined.

(** ** Properties of the formatters *)

(** *** Strings *)

Lemma append_assoc (a b c : string) : (a ++ b) ++ c = a ++ (b ++ c).
Proof. induction a as [| x a IH]; cbn; [reflexivity | rewrite IH; reflexivity]. Qed.

Lemma append_empty_r (a : string) : a ++ "" = a.
Proof. induction a as [| x a IH]; cbn; [reflexivity | rewrite IH; reflexivity]. Qed.

Lemma length_append (a b : string) :
  String.length (a ++ b) = (String.length a + String.length b)%nat.
Proof. induction a as [| x a IH]; cbn; [reflexivity | rewrite IH; reflexivity]. Qed.

Lemma substring_all (a : string) : substring 0 (String.length a) a = a.
Proof. induction a as [| x a IH]; cbn; [reflexivity | rewrite IH; reflexivity]. Qed.

Lemma substring_prefix (a b : string) :
  substring 0 (String.length a) (a ++ b) = a.
Proof.
  induction a as [| x a IH]; cbn.
  - destruct b; reflexivity.
  - rewrite IH. reflexivity.
Qed.

Lemma substring_suffix (a b : string) :
  substring (String.length a) (String.length b) (a ++ b) = b.
Proof.
  induction a as [| x a IH]; cbn; [apply substring_all | exact IH].
Qed.

Lemma string_take_append (a b : string) :
  string_take (strlen a) (a ++ b) = a.
Proof.
  unfold string_take, strlen. rewrite Nat2Z.id. apply substring_prefix.
Qed.

Lemma string_drop_append (a b : string) :
  string_drop (strlen a) (a ++ b) = b.
Proof.
  unfold string_drop, strlen. rewrite Nat2Z.id, length_append.
  replace (String.length a + String.length b - String.length a)%nat
    with (String.length b) by lia.
  apply substring_suffix.
Qed.

Lemma all_digits_append (a b : string) :
  all_digits (a ++ b) = all_digits a && all_digits b.
Proof.
  induction a as [| x a IH]; cbn; [reflexivity |].
  rewrite IH. apply andb_assoc.
Qed.

(** *** Decimal numerals *)

Lemma digit_char_is_digit (d : Z) : 0 <= d < 10 -> is_digit (digit_char d) = true.
Proof.
  intros H.
  assert (C : d = 0 \/ d = 1 \/ d = 2 \/ d = 3 \/ d = 4 \/ d = 5 \/ d = 6
              \/ d = 7 \/ d = 8 \/ d = 9) by lia.
  repeat (destruct C as [-> | C]; [reflexivity |]). subst d. reflexivity.
Qed.

Lemma decimal_fuel_acc (fuel : nat) (n : Z) (acc : string) :
  decimal_fuel fuel n acc = decimal_fuel fuel n "" ++ acc.
Proof.
  revert n acc. induction fuel as [| fuel IH]; intros n acc; cbn; [reflexivity |].
  destruct (n <? 10); [reflexivity |].
  rewrite IH. rewrite (IH _ (String _ "")). rewrite append_assoc. reflexivity.
Qed.

Lemma decimal_fuel_enough (f1 f2 : nat) (n : Z) (acc : string) :
  0 <= n -> n < 2 * 2 ^ Z.of_nat f1 -> n < 2 * 2 ^ Z.of_nat f2 ->
  decimal_fuel (S f1) n acc = decimal_fuel (S f2) n acc.
Proof.
  revert f2 n acc. induction f1 as [| f1 IH]; intros f2 n acc Hn H1 H2.
  - cbn in H1. cbn [decimal_fuel].
    destruct (Z.ltb_spec n 10); [reflexivity | lia].
  - cbn [decimal_fuel]. destruct (Z.ltb_spec n 10) as [| Hge]; [reflexivity |].
    destruct f2 as [| f2].
    + cbn in H2. lia.
    + fold (decimal_fuel (S f1) (n / 10) (String (digit_char (n mod 10)) acc)).
      fold (decimal_fuel (S f2) (n / 10) (String (digit_char (n mod 10)) acc)).
      rewrite !Nat2Z.inj_succ, !Z.pow_succ_r in H1, H2 by lia.
      apply IH.
      * apply Z.div_pos; lia.
      * apply Z.div_lt_upper_bound; lia.
      * apply Z.div_lt_upper_bound; lia.
Qed.

Lemma decimal_small (n : Z) :
  0 <= n < 10 -> decimal n = String (digit_char n) "".
Proof.
  intros H. unfold decimal. cbn [decimal_fuel].
  destruct (Z.ltb_spec n 10); [| lia].
  rewrite Z.mod_small by lia. reflexivity.
Qed.

Lemma decimal_step (n : Z) :
  10 <= n -> decimal n = decimal (n / 10) ++ String (digit_char (n mod 10)) "".
Proof.
  intros H. unfold decimal at 1. cbn [decimal_fuel].
  destruct (Z.ltb_spec n 10); [lia |].
  rewrite decimal_fuel_acc.
  f_equal.
  assert (Hl : 1 <= Z.log2 n) by (apply Z.log2_le_pow2; lia).
  destruct (Z.to_nat (Z.log2 n)) as [| f] eqn:Ef; [lia |].
  unfold decimal.
  assert (Hq : 0 < n / 10) by (apply Z.div_str_pos; lia).
  apply decimal_fuel_enough.
  - lia.
  - assert (Z.of_nat f = Z.log2 n - 1) by lia.
    pose proof (Z.log2_spec n ltac:(lia)) as [_ Hs].
    replace (Z.succ (Z.log2 n)) with (Z.of_nat f + 1 + 1) in Hs by lia.
    rewrite !Z.pow_add_r in Hs by lia.
    apply Z.div_lt_upper_bound; lia.
  - rewrite Z2Nat.id by apply Z.log2_nonneg.
    pose proof (Z.log2_spec (n / 10) Hq) as [_ Hs].
    rewrite Z.pow_succ_r in Hs by apply Z.log2_nonneg. lia.
Qed.

Lemma decimal_induction (P : Z -> Prop) :
  (forall n, 0 <= n < 10 -> P n) ->
  (forall n, 10 <= n -> P (n / 10) -> P n) ->
  forall n, 0 <= n -> P n.
Proof.
  intros Hsmall Hstep n.
  induction n as [n IH] using (well_founded_induction (Z.lt_wf 0)).
  intros Hn. destruct (Z_lt_ge_dec n 10) as [Hlt | Hge].
  - apply Hsmall. lia.
  - apply Hstep; [lia |].
    assert (0 <= n / 10 < n) by (split; [apply Z.div_pos | apply Z.div_lt]; lia).
    apply IH; lia.
Qed.

Lemma decimal_all_digits (n : Z) : 0 <= n -> all_digits (decimal n) = true.
Proof.
  revert n. apply decimal_induction.
  - intros n Hn. rewrite decimal_small by exact Hn. cbn [all_digits].
    rewrite digit_char_is_digit by exact Hn. reflexivity.
  - intros n Hn IH. rewrite decimal_step by exact Hn.
    rewrite all_digits_append, IH. cbn [all_digits].
    rewrite digit_char_is_digit; [reflexivity |].
    apply Z.mod_pos_bound. lia.
Qed.

Lemma decimal_nonempty (n : Z) : 0 <= n -> (1 <= String.length (decimal n))%nat.
Proof.
  revert n. apply decimal_induction.
  - intros n Hn. rewrite decimal_small by exact Hn. cbn. lia.
  - intros n Hn IH. rewrite decimal_step by exact Hn.
    rewrite length_append. lia.
Qed.

(** *** Two decimal places *)

Lemma fixed_digits_two (n : Z) : 0 <= n -> fixed_digits n 2 = two_decimals n.
Proof.
  intros Hn. unfold fixed_digits, two_decimals. cbn [Z.eqb].
  destruct (Z_lt_ge_dec n 10) as [H1 | H1].
  - rewrite (decimal_small n) by lia.
    rewrite Z.div_small by lia. rewrite (Z.div_small n 10) by lia.
    rewrite (Z.mod_small n 10) by lia. reflexivity.
  - rewrite (decimal_step n) by lia.
    destruct (Z_lt_ge_dec n 100) as [H2 | H2].
    + assert (Hq : 0 <= n / 10 < 10).
      { split; [apply Z.div_pos; lia | apply Z.div_lt_upper_bound; lia]. }
      rewrite (decimal_small (n / 10)) by exact Hq.
      rewrite (Z.div_small n 100) by lia.
      rewrite (Z.mod_small (n / 10) 10) by exact Hq. reflexivity.
    + assert (Hq : 10 <= n / 10) by (apply Z.div_le_lower_bound; lia).
      rewrite (decimal_step (n / 10)) by exact Hq.
      rewrite Z.div_div by lia. change (10 * 10) with 100.
      rewrite append_assoc. cbn [append].
      set (a := decimal (n / 100)).
      set (b := String (digit_char (n / 10 mod 10)) (String (digit_char (n mod 10)) "")).
      assert (Ha : (1 <= String.length a)%nat).
      { apply decimal_nonempty. apply Z.div_pos; lia. }
      assert (Hk : strlen (a ++ b) = strlen a + 2).
      { unfold strlen. rewrite length_append. subst b. cbn [String.length]. lia. }
      rewrite Hk. destruct (Z.leb_spec (strlen a + 2) 2) as [Hle | Hgt].
      { unfold strlen in Hle. lia. }
      replace (strlen a + 2 - 2) with (strlen a) by lia.
      rewrite string_take_append, string_drop_append. reflexivity.
Qed.

(** *** The percentage of a rate *)

(** From [magnitude (S754_finite s m e) = Some (num, den)], replace [num]
    and [den] by the fraction of the mantissa and the exponent. *)
Ltac magnitude_of_finite H :=
  match type of H with
  | magnitude (S754_finite _ ?m ?e) = Some (?num, ?den) =>
      let Hn := fresh "Hnum" in
      let Hd := fresh "Hden" in
      assert (Hn : num = Z.pos m * 2 ^ Z.max e 0)
        by (cbn [magnitude] in H; congruence);
      assert (Hd : den = 2 ^ Z.max (- e) 0)
        by (cbn [magnitude] in H; congruence);
      subst num den; clear H
  end.

Lemma js_ge_zero (x : number) : js_ge x (number_of_Z 0) = non_negative x.
Proof. destruct x as [s | s | | s m e]; try destruct s; reflexivity. Qed.

Lemma pow_pos_part_pos (b z : Z) : 0 < b -> 0 < pow_pos_part b z.
Proof. intros H. unfold pow_pos_part. apply Z.pow_pos_nonneg; lia. Qed.

Lemma scaled_den_pos (p q : Z) : 0 < scaled_den p q.
Proof. unfold scaled_den. apply Z.mul_pos_pos; apply pow_pos_part_pos; lia. Qed.

Lemma round_half_up_scaled_nearest (a p q : Z) :
  0 <= a ->
  let n := round_half_up_scaled a p q in
  0 <= n
  /\ Z.abs (2 * (scaled_num a p q - n * scaled_den p q)) <= scaled_den p q.
Proof.
  intros Ha n. subst n. unfold round_half_up_scaled.
  pose proof (scaled_den_pos p q) as Hd.
  assert (Hn : 0 <= scaled_num a p q).
  { unfold scaled_num.
    pose proof (pow_pos_part_pos 10 p ltac:(lia)).
    pose proof (pow_pos_part_pos 2 q ltac:(lia)). nia. }
  set (N := scaled_num a p q) in *. set (D := scaled_den p q) in *.
  pose proof (Z.div_mod (2 * N + D) (2 * D) ltac:(lia)) as Hdm.
  pose proof (Z.mod_pos_bound (2 * N + D) (2 * D) ltac:(lia)) as Hb.
  split.
  - apply Z.div_pos; lia.
  - nia.
Qed.

Lemma compare_scaled_lt (m e : Z) :
  compare_scaled m 0 e (10 ^ 21) = Lt <->
  m * 2 ^ Z.max e 0 < 10 ^ 21 * 2 ^ Z.max (- e) 0.
Proof.
  unfold compare_scaled, scaled_num, scaled_den, pow_pos_part.
  cbn [Z.max Z.opp Z.compare]. change (10 ^ 0) with 1.
  rewrite Z.mul_1_r, Z.mul_1_l. apply Z.compare_lt_iff.
Qed.

Lemma formatChangeRate_rendering (rate : number) (num den : Z) :
  magnitude (js_mul rate (number_of_Z 100)) = Some (num, den) ->
  num < 10 ^ 21 * den ->
  percentage_rendering rate (formatChangeRate rate).
Proof.
  intros Hm Hlt. unfold percentage_rendering, formatChangeRate.
  rewrite js_ge_zero.
  destruct (js_mul rate (number_of_Z 100)) as [s | s | | s m e] eqn:Hp;
    try discriminate.
  - exists 0. split; [lia |]. split.
    + intros num' den' [= <- <-]. cbn. lia.
    + cbn [Number_toFixed strictly_negative]. rewrite fixed_digits_two by lia.
      reflexivity.
  - magnitude_of_finite Hm.
    apply compare_scaled_lt in Hlt.
    pose proof (round_half_up_scaled_nearest (Zpos m) 2 e ltac:(lia)) as [Hn Hnear].
    exists (round_half_up_scaled (Zpos m) 2 e). split; [exact Hn |]. split.
    + intros num' den' Hm'.
      magnitude_of_finite Hm'.
      unfold scaled_num, scaled_den, pow_pos_part in Hnear.
      cbn [Z.max Z.opp Z.compare] in Hnear.
      change (10 ^ 0) with 1 in Hnear. change (10 ^ 2) with 100 in Hnear.
      rewrite Z.mul_1_l in Hnear.
      replace (100 * (Z.pos m * 2 ^ Z.max e 0))
        with (Z.pos m * 100 * 2 ^ Z.max e 0) by ring.
      exact Hnear.
    + cbn [Number_toFixed strictly_negative]. rewrite Hlt.
      rewrite fixed_digits_two by exact Hn.
      rewrite !append_assoc. reflexivity.
Qed.

Lemma two_decimals_length (n : Z) :
  0 <= n -> (4 <= String.length (two_decimals n))%nat.
Proof.
  intros Hn. unfold two_decimals. rewrite length_append.
  pose proof (decimal_nonempty (n / 100) ltac:(apply Z.div_pos; lia)).
  cbn [String.length append]. lia.
Qed.

(** The rate NaN is not rendered with two decimal places, nor is a rate
    of [10^19], whose percentage is printed in exponent notation. *)
Lemma formatChangeRate_nan_no_decimals :
  formatChangeRate S754_nan = "NaN%"
  /\ formatChangeRate (number_of_Z (10 ^ 19)) = "+1e+21%"
  /\ ~ percentage_rendering S754_nan (formatChangeRate S754_nan)
  /\ ~ percentage_rendering (number_of_Z (10 ^ 19))
         (formatChangeRate (number_of_Z (10 ^ 19))).
Proof.
  split; [reflexivity |]. split; [vm_compute; reflexivity |]. split.
  - intros (n & Hn & _ & Hout).
    apply (f_equal String.length) in Hout.
    cbn [non_negative strictly_negative js_mul SFmul append] in Hout.
    rewrite length_append in Hout.
    pose proof (two_decimals_length n Hn).
    change (String.length (formatChangeRate S754_nan)) with 4%nat in Hout.
    cbn [String.length] in Hout. lia.
  - intros (n & Hn & _ & Hout).
    assert (Hf : formatChangeRate (number_of_Z (10 ^ 19)) = "+1e+21%")
      by (vm_compute; reflexivity).
    assert (Hp : non_negative (number_of_Z (10 ^ 19)) = true)
      by (vm_compute; reflexivity).
    assert (Hs : strictly_negative (js_mul (number_of_Z (10 ^ 19)) (number_of_Z 100))
                 = false) by (vm_compute; reflexivity).
    rewrite Hf, Hp, Hs in Hout. unfold two_decimals in Hout.
    cbn [append] in Hout. injection Hout as Hout.
    destruct (decimal (n / 100)) as [| x [| y [| z r]]];
      cbn [append] in Hout; try discriminate Hout.
    injection Hout as _ _ _ Hout.
    apply (f_equal String.length) in Hout.
    rewrite !length_append in Hout. cbn [String.length] in Hout. lia.
Qed.


(** *** Binary digits and exact conversions *)

Lemma digits2_pos_size (p : positive) : digits2_pos p = Pos.size p.
Proof. induction p as [p IH | p IH |]; cbn; [rewrite IH | rewrite IH |]; reflexivity. Qed.

Lemma digits2_pos_bounds (p : positive) :
  2 ^ (Z.pos (digits2_pos p) - 1) <= Z.pos p < 2 ^ Z.pos (digits2_pos p).
Proof.
  induction p as [p IH | p IH |].
  - cbn [digits2_pos]. rewrite Pos2Z.inj_succ.
    replace (Z.succ (Z.pos (digits2_pos p)) - 1) with (Z.succ (Z.pos (digits2_pos p) - 1)) by lia.
    rewrite !Z.pow_succ_r by lia. lia.
  - cbn [digits2_pos]. rewrite Pos2Z.inj_succ.
    replace (Z.succ (Z.pos (digits2_pos p)) - 1) with (Z.succ (Z.pos (digits2_pos p) - 1)) by lia.
    rewrite !Z.pow_succ_r by lia. lia.
  - cbn. lia.
Qed.

Lemma digits2_pos_iter_xO (p k : positive) :
  digits2_pos (Pos.iter xO p k) = (digits2_pos p + k)%positive.
Proof.
  induction k as [| k IH] using Pos.peano_ind.
  - cbn. lia.
  - rewrite Pos.iter_succ. cbn [digits2_pos]. rewrite IH. lia.
Qed.

Lemma Zpos_iter_xO (p k : positive) :
  Z.pos (Pos.iter xO p k) = Z.pos p * 2 ^ Z.pos k.
Proof.
  induction k as [| k IH] using Pos.peano_ind.
  - cbn. lia.
  - rewrite Pos.iter_succ, Pos2Z.inj_xO, IH, Pos2Z.inj_succ, Z.pow_succ_r by lia. ring.
Qed.

(** A mantissa of full width within the exponent range is left as it is. *)
Lemma binary_round_aux_canonical (s : bool) (mz : positive) (ez : Z) :
  Z.pos (digits2_pos mz) = 53 -> -1074 <= ez <= 971 ->
  binary_round_aux prec emax s (Z.pos mz) ez loc_Exact = S754_finite s mz ez.
Proof.
  intros Hd He.
  unfold binary_round_aux, shr_fexp, shr_record_of_loc, Zdigits2, fexp, emin, prec, emax.
  rewrite Hd.
  replace (Z.max (53 + ez - 53) (3 - 1024 - 53) - ez) with 0 by lia.
  cbn [shr shr_m loc_of_shr_record round_nearest_even Zdigits2].
  rewrite Hd.
  replace (Z.max (53 + ez - 53) (3 - 1024 - 53) - ez) with 0 by lia.
  cbn [shr shr_m].
  destruct (Z.leb_spec ez (1024 - 53)); [reflexivity | lia].
Qed.

(** An integer of at most 53 bits converts to a double of the same value. *)
Lemma number_of_Z_exact (n : Z) :
  0 < Z.abs n < 2 ^ 53 ->
  exists mz ez,
    number_of_Z n = S754_finite (n <? 0) mz ez
    /\ ez <= 0
    /\ Z.pos mz = Z.abs n * 2 ^ (- ez).
Proof.
  intros Hn.
  assert (H : forall s p, Z.pos p < 2 ^ 53 ->
            exists mz ez, binary_round prec emax s p 0 = S754_finite s mz ez
                          /\ ez <= 0 /\ Z.pos mz = Z.pos p * 2 ^ (- ez)).
  { intros s p Hp.
    pose proof (digits2_pos_bounds p) as [Hlo Hhi].
    assert (Hd : Z.pos (digits2_pos p) <= 53).
    { destruct (Z_le_gt_dec (Z.pos (digits2_pos p)) 53) as [| Hgt]; [assumption |].
      assert (2 ^ 53 <= 2 ^ (Z.pos (digits2_pos p) - 1)) by (apply Z.pow_le_mono_r; lia).
      lia. }
    unfold binary_round, fexp, emin, prec, emax.
    replace (Z.max (Z.pos (digits2_pos p) + 0 - 53) (3 - 1024 - 53))
      with (Z.pos (digits2_pos p) - 53) by lia.
    unfold shl_align.
    destruct (Z.eq_dec (Z.pos (digits2_pos p)) 53) as [He | Hne].
    - rewrite He. cbn [Z.sub Z.add Z.opp Z.pos_sub Pos.compare Pos.compare_cont
                         Z.succ_double Z.pred_double Z.double].
      change (53 - 53 - 0) with 0. cbv iota.
      exists p, 0. split; [| split; [lia | cbn; lia]].
      apply binary_round_aux_canonical; [exact He | lia].
    - set (k := Z.to_pos (53 - Z.pos (digits2_pos p))).
      replace (Z.pos (digits2_pos p) - 53 - 0) with (Z.neg k)
        by (unfold k; rewrite <- Pos2Z.opp_pos, Z2Pos.id; lia).
      exists (Pos.iter xO p k), (Z.pos (digits2_pos p) - 53).
      split; [| split; [lia |]].
      + apply binary_round_aux_canonical; [| lia].
        rewrite digits2_pos_iter_xO, Pos2Z.inj_add. unfold k.
        rewrite Z2Pos.id; lia.
      + rewrite Zpos_iter_xO. f_equal. f_equal. unfold k.
        rewrite Z2Pos.id; lia. }
  unfold number_of_Z, binary_normalize.
  destruct n as [| p | p]; cbn [Z.abs] in Hn; [lia | |].
  - apply (H false p). lia.
  - apply (H true p). lia.
Qed.

(** *** Thousands separators *)

Lemma concat_cons_char (sep : string) (c : ascii) (x : string) (xs : list string) :
  String.concat sep (String c x :: xs) = String c (String.concat sep (x :: xs)).
Proof. destruct xs; reflexivity. Qed.

Lemma insert_separators_groups (digits : string) :
  digits <> "" ->
  exists (first : string) (others : list string),
    insert_separators digits = String.concat "," (first :: others)
    /\ digits = String.concat "" (first :: others)
    /\ (1 <= String.length first <= 3)%nat
    /\ Forall (fun group => String.length group = 3%nat) others
    /\ String.length digits = (String.length first + 3 * List.length others)%nat.
Proof.
  induction digits as [| c rest IH]; [congruence |]. intros _.
  destruct rest as [| c' rest'].
  - exists (String c ""), []. cbn. repeat split; try lia. constructor.
  - destruct IH as (first & others & Hi & Hd & Hf & Ho & Hl); [discriminate |].
    set (rest := String c' rest') in *.
    cbn [insert_separators]. fold rest.
    assert (Hpos : (0 <? strlen rest) = true).
    { apply Z.ltb_lt. unfold strlen, rest. cbn [String.length]. lia. }
    rewrite Hpos. cbn [andb].
    destruct (Z.eqb_spec (strlen rest mod 3) 0) as [Hm | Hm].
    + exists (String c ""), (first :: others).
      assert (Hf3 : String.length first = 3%nat).
      { unfold strlen in Hm. rewrite Hl in Hm.
        revert Hm. generalize (List.length others). intros k Hm.
        Z.div_mod_to_equations. lia. }
      repeat split.
      * rewrite Hi. reflexivity.
      * rewrite Hd at 1. reflexivity.
      * cbn. lia.
      * cbn. lia.
      * constructor; assumption.
      * cbn [String.length List.length]. lia.
    + exists (String c first), others.
      assert (Hf12 : (String.length first <= 2)%nat).
      { destruct (Nat.eq_dec (String.length first) 3) as [C |]; [| lia].
        exfalso. apply Hm. unfold strlen. rewrite Hl, C.
        generalize (List.length others). intros k.
        Z.div_mod_to_equations. lia. }
      repeat split.
      * rewrite Hi. symmetry. apply concat_cons_char.
      * rewrite Hd at 1. symmetry. apply concat_cons_char.
      * cbn. lia.
      * cbn [String.length]. lia.
      * assumption.
      * cbn [String.length]. lia.
Qed.

Lemma insert_separators_grouped (digits : string) :
  digits <> "" -> thousands_grouped (insert_separators digits) digits.
Proof.
  intros H. destruct (insert_separators_groups digits H)
    as (first & others & Hi & Hd & Hf & Ho & _).
  exists first, others. auto.
Qed.

Lemma decimal_grouped (n : Z) :
  0 <= n -> thousands_grouped (insert_separators (decimal n)) (decimal n).
Proof.
  intros Hn. apply insert_separators_grouped.
  pose proof (decimal_nonempty n Hn). destruct (decimal n); [cbn in *; lia | discriminate].
Qed.

(** *** The ko-KR format of an integral number *)

Lemma format_integral (s : bool) (m : positive) (e A : Z) :
  Z.pos m * 2 ^ Z.max e 0 = A * 2 ^ Z.max (- e) 0 ->
  A < 2 ^ 53 ->
  Intl_NumberFormat_ko_KR_format (S754_finite s m e)
  = (if s then "-" else "") ++ insert_separators (decimal A).
Proof.
  intros HA Hlt. unfold Intl_NumberFormat_ko_KR_format.
  assert (Hn : shown_thousandths (Z.pos m) e = A * 1000).
  { unfold shown_thousandths, pow_pos_part, prec.
    set (D := 2 ^ Z.max (- e) 0) in *.
    assert (HD : 0 < D) by (apply Z.pow_pos_nonneg; lia).
    rewrite HA, Z.mod_mul, Z.div_mul by lia.
    rewrite Z.eqb_refl, (proj2 (Z.ltb_lt A (2 ^ 53)) Hlt). reflexivity. }
  rewrite Hn. rewrite Z.mod_mul, Z.div_mul by lia.
  cbn. rewrite append_empty_r. reflexivity.
Qed.

Lemma is_double_finite (s : bool) (m : positive) (e : Z) :
  is_double (S754_finite s m e) = true ->
  Z.pos (digits2_pos m) <= 53
  /\ -1074 <= e <= 971
  /\ (Z.pos (digits2_pos m) = 53 \/ e = -1074)
  /\ Z.pos m < 2 ^ 53.
Proof.
  unfold is_double, valid_binary, bounded, canonical_mantissa, fexp, emin, prec, emax.
  intros H. apply andb_true_iff in H. destruct H as [Hc He].
  apply Z.eqb_eq in Hc. apply Z.leb_le in He.
  pose proof (digits2_pos_bounds m) as [_ Hhi].
  assert (Hd : Z.pos (digits2_pos m) <= 53) by lia.
  repeat split; try lia.
  apply Z.lt_le_trans with (1 := Hhi). apply Z.pow_le_mono_r; lia.
Qed.

Lemma formatPrice_rendering (amount : number) (num0 den0 : Z) :
  is_double amount = true ->
  magnitude amount = Some (num0, den0) ->
  num0 < 2 ^ 53 * den0 ->
  price_rendering amount (formatPrice amount).
Proof.
  intros Hd Hm0 Hlt0. destruct amount as [s | s | | s m e]; try discriminate.
  - exists 0, (insert_separators (decimal 0)). split; [| split].
    + intros num den [= <- <-]. destruct s; cbn; lia.
    + apply decimal_grouped. lia.
    + reflexivity.
  - magnitude_of_finite Hm0. unfold formatPrice, Math_round.
    destruct (Z.leb_spec 0 e) as [He | He].
    + exists (cond_Zopp s (Z.pos m * 2 ^ e)), (insert_separators (decimal (Z.pos m * 2 ^ e))).
      assert (HA : 0 < Z.pos m * 2 ^ e).
      { apply Z.mul_pos_pos; [lia | apply Z.pow_pos_nonneg; lia]. }
      split; [| split].
      * intros num den Hm.
        magnitude_of_finite Hm. cbn [sign_bit].
        rewrite (Z.max_l e 0), (Z.max_r (- e) 0) by lia.
        change (2 ^ 0) with 1. lia.
      * replace (Z.abs (cond_Zopp s (Z.pos m * 2 ^ e))) with (Z.pos m * 2 ^ e)
          by (destruct s; cbn [cond_Zopp]; lia).
        apply decimal_grouped. lia.
      * cbn [sign_bit].
        rewrite (Z.max_l e 0), (Z.max_r (- e) 0) in Hlt0 by lia.
        change (2 ^ 0) with 1 in Hlt0.
        apply format_integral; [| lia].
        rewrite (Z.max_l e 0), (Z.max_r (- e) 0) by lia.
        change (2 ^ 0) with 1. lia.
    + destruct (is_double_finite s m e Hd) as (_ & _ & _ & Hm53).
      set (D := 2 ^ (- e)).
      assert (HD : 2 <= D).
      { unfold D. change 2 with (2 ^ 1) at 1. apply Z.pow_le_mono_r; lia. }
      replace (2 ^ (1 - e)) with (2 * D)
        by (unfold D; replace (1 - e) with (Z.succ (- e)) by lia;
            rewrite Z.pow_succ_r by lia; reflexivity).
      remember (2 * cond_Zopp s (Z.pos m) + D) as N eqn:HN.
      pose proof (Z.div_mod N (2 * D) ltac:(lia)) as Hdm.
      pose proof (Z.mod_pos_bound N (2 * D) ltac:(lia)) as Hmb.
      remember (N / (2 * D)) as n eqn:Hndef.
      remember (N mod (2 * D)) as r eqn:Hrdef.
      assert (Hnear : Z.abs (2 * (cond_Zopp s (Z.pos m) - n * D)) <= D) by lia.
      assert (Hmag : forall num den,
                 magnitude (S754_finite s m e) = Some (num, den) ->
                 Z.abs (2 * (cond_Zopp (sign_bit (S754_finite s m e)) num - n * den)) <= den).
      { intros num den Hm.
        magnitude_of_finite Hm. cbn [sign_bit].
        rewrite (Z.max_r e 0), (Z.max_l (- e) 0) by lia.
        change (2 ^ 0) with 1. rewrite Z.mul_1_r. exact Hnear. }
      destruct (Z.eqb_spec n 0) as [Hn0 | Hn0].
      * exists 0, (insert_separators (decimal 0)). split; [| split].
        -- rewrite <- Hn0. exact Hmag.
        -- apply decimal_grouped. lia.
        -- reflexivity.
      * assert (Hsign : (n <? 0) = s).
        { destruct s; cbn [cond_Zopp] in *.
          - apply Z.ltb_lt. nia.
          - apply Z.ltb_ge. nia. }
        assert (Hbound : 0 < Z.abs n < 2 ^ 53).
        { split; [lia |]. destruct s; cbn [cond_Zopp] in *; nia. }
        destruct (number_of_Z_exact n Hbound) as (mz & ez & Hz & Hez & Hmz).
        rewrite Hz, Hsign.
        exists n, (insert_separators (decimal (Z.abs n))). split; [| split].
        -- exact Hmag.
        -- apply decimal_grouped. lia.
        -- cbn [sign_bit]. apply format_integral; [| lia].
           rewrite (Z.max_r ez 0), (Z.max_l (- ez) 0) by lia.
           change (2 ^ 0) with 1. lia.
Qed.

Lemma remove_commas_append (a b : string) :
  remove_commas (a ++ b) = remove_commas a ++ remove_commas b.
Proof.
  induction a as [| c a IH]; cbn [append remove_commas]; [reflexivity |].
  destruct (Ascii.eqb c ","); [exact IH | cbn [append]; rewrite IH; reflexivity].
Qed.

Lemma remove_commas_digits (a : string) :
  all_digits a = true -> remove_commas a = a.
Proof.
  induction a as [| c a IH]; [reflexivity |].
  cbn [all_digits remove_commas]. intros H. apply andb_true_iff in H.
  destruct H as [Hc Ha].
  replace (Ascii.eqb c ",") with false
    by (symmetry; apply Ascii.eqb_neq; intros ->; discriminate).
  rewrite (IH Ha). reflexivity.
Qed.

(** With its commas removed, a grouped numeral is the numeral. *)
Lemma thousands_grouped_digits (g digits : string) :
  thousands_grouped g digits -> all_digits digits = true ->
  remove_commas g = digits.
Proof.
  intros (first & others & -> & -> & _ & _). revert first.
  induction others as [| second others IH]; intros first Hall.
  - apply remove_commas_digits, Hall.
  - change (String.concat "," (first :: second :: others))
      with (first ++ "," ++ String.concat "," (second :: others)).
    change (String.concat "" (first :: second :: others))
      with (first ++ "" ++ String.concat "" (second :: others)) in *.
    cbn [append] in Hall. rewrite all_digits_append in Hall.
    apply andb_true_iff in Hall. destruct Hall as [H1 H2].
    rewrite remove_commas_append, (remove_commas_digits first H1).
    cbn [append remove_commas Ascii.eqb Bool.eqb]. rewrite (IH second H2).
    reflexivity.
Qed.



(** *** Rounding of an exact product *)

Lemma iter_pos_nat {A : Type} (f : A -> A) (p : positive) (x : A) :
  iter_pos f p x = Nat.iter (Pos.to_nat p) f x.
Proof.
  revert x. induction p as [p IH | p IH |]; intros x; cbn [iter_pos].
  - rewrite !IH, <- Nat.iter_add, <- Nat.iter_succ_r. f_equal. lia.
  - rewrite !IH, <- Nat.iter_add. f_equal. lia.
  - reflexivity.
Qed.

Lemma shr_1_spec (mrs : shr_record) :
  0 <= shr_m mrs ->
  shr_m (shr_1 mrs) = shr_m mrs / 2 /\ shr_r (shr_1 mrs) = Z.odd (shr_m mrs).
Proof.
  destruct mrs as [m r s]. cbn [shr_m]. intros Hm.
  destruct m as [| [p | p |] |]; cbn [shr_1 shr_m shr_r]; try lia.
  - split; reflexivity.
  - split; [| reflexivity]. rewrite Pos2Z.inj_xI.
    rewrite Z.add_comm, Z.mul_comm, Z.div_add by lia. reflexivity.
  - split; [| reflexivity]. rewrite Pos2Z.inj_xO.
    rewrite Z.mul_comm, Z.div_mul by lia. reflexivity.
  - split; reflexivity.
Qed.

(** Shifting right [n] times keeps the quotient by [2^n]; the round bit is
    set only when the remainder is at least half of [2^n]. *)
Lemma iter_shr_1_spec (n : nat) (M : Z) :
  0 <= M ->
  let mrs := Nat.iter n shr_1 {| shr_m := M; shr_r := false; shr_s := false |} in
  shr_m mrs = M / 2 ^ Z.of_nat n
  /\ (shr_r mrs = true -> 2 ^ Z.of_nat n <= 2 * (M mod 2 ^ Z.of_nat n)).
Proof.
  intros HM. induction n as [| n IH].
  - cbn. split; [rewrite Z.div_1_r; reflexivity | discriminate].
  - cbn zeta in *. rewrite Nat.iter_succ. destruct IH as [IHm IHr].
    set (mrs := Nat.iter n shr_1 _) in *.
    assert (Hpos : 0 < 2 ^ Z.of_nat n) by (apply Z.pow_pos_nonneg; lia).
    assert (Hq : 0 <= shr_m mrs) by (rewrite IHm; apply Z.div_pos; lia).
    destruct (shr_1_spec mrs Hq) as [H1 H2].
    rewrite Nat2Z.inj_succ, (Z.pow_succ_r 2 (Z.of_nat n)) by apply Nat2Z.is_nonneg.
    split.
    + rewrite H1, IHm, Z.div_div by lia. f_equal. ring.
    + rewrite H2, IHm. intros Hodd.
      rewrite (Z.mul_comm 2 (2 ^ Z.of_nat n)), Z.rem_mul_r by lia.
      replace ((M / 2 ^ Z.of_nat n) mod 2) with 1.
      * pose proof (Z.mod_pos_bound M (2 ^ Z.of_nat n) Hpos). lia.
      * rewrite Zmod_odd, Hodd. reflexivity.
Qed.

Lemma round_nearest_even_shr (mrs : shr_record) :
  let q' := round_nearest_even (shr_m mrs) (loc_of_shr_record mrs) in
  q' = shr_m mrs \/ (q' = shr_m mrs + 1 /\ shr_r mrs = true).
Proof.
  destruct mrs as [m [|] [|]]; cbn; auto.
  destruct (Z.even m); auto.
Qed.

(** The result of rounding the exact value [P * 2^E] when it needs a right
    shift by [k >= 0] bits to fit, is at least one unit in the last place
    and stays within the exponent range: the mantissa [q'] kept at exponent
    [e1] is the quotient of [P] by [2^k], or its successor when the
    remainder is at least half of [2^k]. *)
Lemma binary_round_aux_shift (s : bool) (P : positive) (E : Z) :
  let d := Z.pos (digits2_pos P) in
  let e1 := Z.max (d + E - 53) (-1074) in
  let k := e1 - E in
  0 <= k -> e1 < 971 -> 2 ^ k <= Z.pos P ->
  exists m' e' q',
    binary_round_aux prec emax s (Z.pos P) E loc_Exact = S754_finite s m' e'
    /\ e1 <= e'
    /\ Z.pos m' * 2 ^ (e' - e1) = q'
    /\ q' <= 2 ^ 53
    /\ (q' = Z.pos P / 2 ^ k
        \/ (q' = Z.pos P / 2 ^ k + 1 /\ 2 ^ k <= 2 * (Z.pos P mod 2 ^ k))).
Proof.
  intros d e1 k Hk He1 HP.
  pose proof (digits2_pos_bounds P) as [Hlo Hhi]. fold d in Hlo, Hhi.
  assert (H2k : 0 < 2 ^ k) by (apply Z.pow_pos_nonneg; lia).
  (* the first shift *)
  assert (Hshift : exists mrs,
             shr_fexp prec emax (Z.pos P) E loc_Exact = (mrs, e1)
             /\ shr_m mrs = Z.pos P / 2 ^ k
             /\ (shr_r mrs = true -> 2 ^ k <= 2 * (Z.pos P mod 2 ^ k))).
  { unfold shr_fexp, shr_record_of_loc, Zdigits2, fexp, emin, prec, emax.
    fold d. change (3 - 1024 - 53) with (-1074). fold e1. fold k.
    destruct k as [| kp | kp] eqn:Ek; [| | lia].
    - eexists. cbn [shr]. split; [f_equal; lia |]. cbn [shr_m shr_r].
      split; [rewrite Z.div_1_r; reflexivity | discriminate].
    - eexists. cbn [shr]. split; [f_equal; lia |].
      rewrite iter_pos_nat.
      pose proof (iter_shr_1_spec (Pos.to_nat kp) (Z.pos P) ltac:(lia)) as Hi.
      cbn zeta in Hi. rewrite positive_nat_Z in Hi. exact Hi. }
  destruct Hshift as (mrs & Hs1 & Hq & Hr).
  set (q := Z.pos P / 2 ^ k) in *.
  assert (Hq1 : 1 <= q).
  { unfold q. apply Z.div_le_lower_bound; lia. }
  assert (Hq53 : q < 2 ^ 53).
  { unfold q. apply Z.div_lt_upper_bound; [lia |].
    apply Z.lt_le_trans with (1 := Hhi).
    rewrite <- Z.pow_add_r by lia. apply Z.pow_le_mono_r; lia. }
  pose proof (round_nearest_even_shr mrs) as Hrne. cbn zeta in Hrne.
  set (q' := round_nearest_even (shr_m mrs) (loc_of_shr_record mrs)) in *.
  rewrite Hq in Hrne.
  assert (Hq' : 1 <= q' <= 2 ^ 53) by lia.
  assert (Hcase : q' = q \/ (q' = q + 1 /\ 2 ^ k <= 2 * (Z.pos P mod 2 ^ k))).
  { destruct Hrne as [-> | [-> Hrt]]; [left; reflexivity | right; auto]. }
  unfold binary_round_aux. rewrite Hs1. fold q'.
  destruct q' as [| qp | qp] eqn:Eq'; [lia | | lia].
  pose proof (digits2_pos_bounds qp) as [Hqlo Hqhi].
  destruct (Z.eq_dec (Z.pos qp) (2 ^ 53)) as [Htop | Hntop].
  - (* the mantissa overflowed to 2^53: one more shift *)
    assert (Hdig : Z.pos (digits2_pos qp) = 54).
    { injection Htop as ->. reflexivity. }
    unfold shr_fexp, shr_record_of_loc, Zdigits2, fexp, emin, prec, emax.
    rewrite Hdig. change (3 - 1024 - 53) with (-1074).
    replace (Z.max (54 + e1 - 53) (-1074) - e1) with 1 by lia.
    injection Htop as ->. cbn [shr iter_pos shr_1 shr_m].
    destruct (Z.leb_spec (e1 + 1) (1024 - 53)); [| lia].
    exists 4503599627370496%positive, (e1 + 1), (2 ^ 53).
    split; [reflexivity |]. split; [lia |].
    replace (e1 + 1 - e1) with 1 by lia.
    split; [reflexivity |]. split; [lia |]. exact Hcase.
  - assert (Hdig : Z.pos (digits2_pos qp) <= 53).
    { destruct (Z_le_gt_dec (Z.pos (digits2_pos qp)) 53) as [| Hgt]; [assumption |].
      assert (2 ^ 53 <= 2 ^ (Z.pos (digits2_pos qp) - 1)) by (apply Z.pow_le_mono_r; lia).
      lia. }
    unfold shr_fexp, shr_record_of_loc, Zdigits2, fexp, emin, prec, emax.
    change (3 - 1024 - 53) with (-1074).
    assert (Hn : Z.max (Z.pos (digits2_pos qp) + e1 - 53) (-1074) - e1 <= 0) by lia.
    destruct (Z.max (Z.pos (digits2_pos qp) + e1 - 53) (-1074) - e1) as [| np | np];
      [| lia |]; cbn [shr shr_m];
      (destruct (Z.leb_spec e1 (1024 - 53)); [| lia]);
      exists qp, e1, (Z.pos qp);
      (split; [reflexivity |]); (split; [lia |]);
      replace (e1 - e1) with 0 by lia;
      (split; [cbn; lia |]); (split; [lia |]); exact Hcase.
Qed.

Lemma hundred_as_double :
  number_of_Z 100 = S754_finite false 7036874417766400 (-46).
Proof. vm_compute. reflexivity. Qed.

(** A number that shows as less than half a hundredth is printed as zero
    hundredths. *)
Lemma toFixed_below_half_hundredth (s : bool) (m : positive) (e : Z) :
  e < 0 -> 200 * Z.pos m < 2 ^ (- e) ->
  Number_toFixed (S754_finite s m e) 2 = (if s then "-" else "") ++ "0.00".
Proof.
  intros He Hm. cbn [Number_toFixed].
  assert (HD : 0 < 2 ^ (- e)) by (apply Z.pow_pos_nonneg; lia).
  assert (Hlt : compare_scaled (Z.pos m) 0 e (10 ^ 21) = Lt).
  { apply compare_scaled_lt.
    rewrite (Z.max_r e 0), (Z.max_l (- e) 0) by lia.
    change (2 ^ 0) with 1. lia. }
  rewrite Hlt.
  assert (Hz : round_half_up_scaled (Z.pos m) 2 e = 0).
  { unfold round_half_up_scaled, scaled_num, scaled_den, pow_pos_part.
    cbn [Z.max Z.opp Z.compare]. change (10 ^ 0) with 1. change (10 ^ 2) with 100.
    rewrite (Z.max_r e 0), (Z.max_l (- e) 0) by lia.
    change (2 ^ 0) with 1. apply Z.div_small. lia. }
  rewrite Hz. reflexivity.
Qed.

(** The product by 100 of a double below 0.00005 in magnitude is a non-zero
    double below 0.005 in magnitude, with the sign of the factor. *)
Lemma product_below_half_hundredth (s : bool) (m : positive) (e : Z) :
  is_double (S754_finite s m e) = true ->
  e < 0 -> 20000 * Z.pos m < 2 ^ (- e) ->
  exists m' e',
    js_mul (S754_finite s m e) (number_of_Z 100) = S754_finite s m' e'
    /\ e' < 0 /\ 200 * Z.pos m' < 2 ^ (- e').
Proof.
  intros Hdbl He Hsmall.
  destruct (is_double_finite s m e Hdbl) as (Hdm & Herange & Hcanon & Hm53).
  rewrite hundred_as_double. unfold js_mul. cbn [SFmul]. rewrite xorb_false_r.
  set (c := 7036874417766400%positive).
  set (P := (m * c)%positive). set (E := e + -46).
  pose proof (digits2_pos_bounds P) as [Hlo Hhi].
  pose proof (digits2_pos_bounds m) as [Hmlo Hmhi].
  set (d := Z.pos (digits2_pos P)) in *.
  set (dm := Z.pos (digits2_pos m)) in *.
  set (D := 2 ^ (- e)) in *.
  assert (HP : Z.pos P = Z.pos m * 7036874417766400) by reflexivity.
  assert (HD : 0 < D) by (apply Z.pow_pos_nonneg; lia).
  (* the exact product is below 1/200 *)
  assert (HE : 2 ^ (- E) = 2 ^ 46 * D).
  { unfold E, D. replace (- (e + -46)) with (46 + - e) by lia.
    apply Z.pow_add_r; lia. }
  assert (Hprod : 200 * Z.pos P < 2 ^ (- E)) by (rewrite HE, HP; lia).
  (* hence its binary exponent is small *)
  assert (Hd53 : 53 <= d).
  { destruct (Z_le_gt_dec 53 d) as [| Hgt]; [assumption |].
    assert (2 ^ d <= 2 ^ 52) by (apply Z.pow_le_mono_r; lia). lia. }
  assert (HdE : d + E <= -7).
  { destruct (Z_le_gt_dec (d + E) (-7)) as [| Hgt]; [assumption |].
    assert (Hle : 2 ^ (- E - 7) <= 2 ^ (d - 1)) by (apply Z.pow_le_mono_r; unfold E; lia).
    assert (Hsplit : 2 ^ (- E) = 2 ^ 7 * 2 ^ (- E - 7)).
    { rewrite <- Z.pow_add_r by (unfold E; lia). f_equal. lia. }
    assert (0 < 2 ^ (- E - 7)) by (apply Z.pow_pos_nonneg; unfold E; lia).
    lia. }
  set (e1 := Z.max (d + E - 53) (-1074)).
  set (k := e1 - E).
  assert (He1 : -1074 <= e1 <= -60) by (unfold e1; lia).
  assert (Hk : 0 <= k) by (unfold k, e1; lia).
  assert (H2k : 2 ^ k <= Z.pos P).
  { unfold k, e1. destruct (Z.max_spec (d + E - 53) (-1074)) as [[_ ->] | [_ ->]].
    - apply Z.le_trans with (2 ^ 46); [apply Z.pow_le_mono_r; unfold E; lia | lia].
    - apply Z.le_trans with (2 ^ (d - 1)); [apply Z.pow_le_mono_r; lia | lia]. }
  destruct (binary_round_aux_shift s P E Hk ltac:(fold d; fold e1; lia) H2k)
    as (m' & e' & q' & Hres & Hee & Hval & Hq53 & Hq).
  fold d in Hee, Hval, Hq. fold e1 in Hee, Hval, Hq. fold k in Hq.
  exists m', e'. split; [exact Hres |].
  set (T := 2 ^ (- e1)).
  set (K := 2 ^ k) in *.
  assert (HK : 0 < K) by (apply Z.pow_pos_nonneg; lia).
  assert (HT : 2 ^ 60 <= T) by (apply Z.pow_le_mono_r; lia).
  assert (HKT : 2 ^ (- E) = K * T).
  { unfold K, T. rewrite <- Z.pow_add_r by lia. f_equal. unfold k. lia. }
  pose proof (Z.div_mod (Z.pos P) K ltac:(lia)) as Hdm'.
  pose proof (Z.mod_pos_bound (Z.pos P) K HK) as Hmb.
  remember (Z.pos P / K) as q eqn:Hqdef.
  remember (Z.pos P mod K) as r eqn:Hrdef.
  (* the kept mantissa is below a two-hundredth of the unit *)
  assert (Hbound : 200 * q' < T).
  { destruct Hq as [-> | [-> Hhalf]]; [nia |].
    destruct (Z_le_gt_dec e1 (-61)) as [He61 | He61].
    - assert (2 ^ 61 <= T) by (apply Z.pow_le_mono_r; lia). lia.
    - assert (He60 : e1 = -60) by lia.
      assert (HdE60 : d + E - 53 = -60) by (unfold e1 in He60; lia).
      assert (Hdlo : dm + 52 <= d).
      { destruct (Z_le_gt_dec (dm + 52) d) as [| Hgt]; [assumption |].
        assert (2 ^ d <= 2 ^ (dm + 51)) by (apply Z.pow_le_mono_r; lia).
        assert (2 ^ (dm + 51) = 2 ^ (dm - 1) * 2 ^ 52)
          by (rewrite <- Z.pow_add_r by lia; f_equal; lia).
        lia. }
      assert (Hdhi : d <= dm + 53).
      { destruct (Z_le_gt_dec d (dm + 53)) as [| Hgt]; [assumption |].
        assert (2 ^ (dm + 53) <= 2 ^ (d - 1)) by (apply Z.pow_le_mono_r; lia).
        assert (2 ^ (dm + 53) = 2 ^ dm * 2 ^ 53)
          by (rewrite <- Z.pow_add_r by lia; f_equal; lia).
        lia. }
      assert (Hdm53 : dm = 53) by (unfold E in HdE60; lia).
      assert (Hm52 : 2 ^ 52 <= Z.pos m) by (rewrite Hdm53 in Hmlo; exact Hmlo).
      assert (Hecase : e = -66 \/ e = -67) by (unfold E in HdE60; lia).
      destruct Hecase as [-> | ->].
      + exfalso. unfold D in Hsmall. cbn in Hsmall. lia.
      + assert (Hk53 : K = 2 ^ 53).
        { unfold K, k. rewrite He60. reflexivity. }
        assert (HT60 : T = 2 ^ 60) by (unfold T; rewrite He60; reflexivity).
        unfold D in Hsmall. cbn in Hsmall.
        rewrite Hk53 in *. rewrite HT60. lia. }
  assert (Hpow : 0 < 2 ^ (e' - e1)) by (apply Z.pow_pos_nonneg; lia).
  assert (He' : e' < 0).
  { destruct (Z_lt_ge_dec e' 0) as [| Hge]; [assumption | exfalso].
    assert (Hs : 2 ^ (e' - e1) = 2 ^ e' * T)
      by (unfold T; rewrite <- Z.pow_add_r by lia; f_equal; lia).
    assert (0 < 2 ^ e') by (apply Z.pow_pos_nonneg; lia).
    nia. }
  split; [exact He' |].
  assert (Hs : T = 2 ^ (- e') * 2 ^ (e' - e1))
    by (unfold T; rewrite <- Z.pow_add_r by lia; f_equal; lia).
  assert (0 < 2 ^ (- e')) by (apply Z.pow_pos_nonneg; lia).
  nia.
Qed.

(** C10. The sign shown is the sign of the rate, not of the rounded
    figure: every double that is strictly negative and below 0.00005 in
    magnitude is formatted as [-0.00%]. *)
Theorem formatChangeRate_tiny_negative (rate : number) (num den : Z) :
  is_double rate = true ->
  strictly_negative rate = true ->
  magnitude rate = Some (num, den) ->
  100000 * num < 5 * den ->
  formatChangeRate rate = "-0.00%".
Proof.
  intros Hd Hneg Hm Hlt.
  destruct rate as [s | s | | s m e]; try discriminate.
  cbn [strictly_negative] in Hneg. subst s.
  magnitude_of_finite Hm.
  assert (He : e < 0).
  { destruct (Z_lt_ge_dec e 0) as [| Hge]; [assumption | exfalso].
    rewrite (Z.max_l e 0), (Z.max_r (- e) 0) in Hlt by lia.
    assert (0 < 2 ^ e) by (apply Z.pow_pos_nonneg; lia).
    change (2 ^ 0) with 1 in Hlt. nia. }
  rewrite (Z.max_r e 0), (Z.max_l (- e) 0) in Hlt by lia.
  change (2 ^ 0) with 1 in Hlt.
  destruct (product_below_half_hundredth true m e Hd He ltac:(lia))
    as (m' & e' & Hp & He' & Hm').
  unfold formatChangeRate. rewrite js_ge_zero, Hp.
  rewrite (toFixed_below_half_hundredth true m' e' He' Hm').
  reflexivity.
Qed.

(** C5. For every rate whose product by 100 (in double arithmetic) is
    finite and below [10^21] in magnitude, [formatChangeRate] shows that
    product to the nearest hundredth with exactly two decimal places and a
    trailing percent sign, after a plus sign exactly when the rate is not
    negative; 0.0523 gives [+5.23%] and -0.01 gives [-1.00%]. *)
Theorem formatChangeRate_two_decimals :
  (forall (rate : number) (num den : Z),
     magnitude (js_mul rate (number_of_Z 100)) = Some (num, den) ->
     num < 10 ^ 21 * den ->
     percentage_rendering rate (formatChangeRate rate))
  /\ formatChangeRate (decimal_literal 523 4) = "+5.23%"
  /\ formatChangeRate (js_neg (decimal_literal 1 2)) = "-1.00%".
Proof.
  split; [exact formatChangeRate_rendering |].
  split; vm_compute; reflexivity.
Qed.

Lemma formatChangeRate_two_decimals_witness :
  magnitude (js_mul (decimal_literal 523 4) (number_of_Z 100))
  = Some (5888456512786923, 2 ^ 50)
  /\ 5888456512786923 < 10 ^ 21 * 2 ^ 50
  /\ percentage_rendering (decimal_literal 523 4)
       (formatChangeRate (decimal_literal 523 4)).
Proof.
  split; [vm_compute; reflexivity |]. split; [vm_compute; reflexivity |].
  apply (proj1 formatChangeRate_two_decimals (decimal_literal 523 4)
           5888456512786923 (2 ^ 50)); vm_compute; reflexivity.
Defined.



Lemma formatChangeRate_tiny_negative_witness :
  is_double (js_neg (decimal_literal 1 5)) = true
  /\ strictly_negative (js_neg (decimal_literal 1 5)) = true
  /\ magnitude (js_neg (decimal_literal 1 5)) = Some (5902958103587057, 2 ^ 69)
  /\ 100000 * 5902958103587057 < 5 * 2 ^ 69
  /\ formatChangeRate (js_neg (decimal_literal 1 5)) = "-0.00%".
Proof.
  split; [vm_compute; reflexivity |]. split; [vm_compute; reflexivity |].
  split; [vm_compute; reflexivity |]. split; [vm_compute; reflexivity |].
  apply (formatChangeRate_tiny_negative (js_neg (decimal_literal 1 5))
           5902958103587057 (2 ^ 69)); vm_compute; reflexivity.
Defined.

(** ** Further properties of the client *)

Section ClientRuns.

Variable Payload : Type.
Variable env : ImportMetaEnv.
Variable host : Host Payload.

(** The world after [getAccounts], in its three cases. *)
Lemma getAccounts_world_cases (w : World) :
  (credentials_configured env = false /\ snd (getAccounts env host w) = w)
  \/ (credentials_configured env = true
      /\ (exists cause,
            jose_sign host "HS256" (signing_claims env host w)
              (TextEncoder_encode (SECRET_KEY env)) = Threw cause)
      /\ snd (getAccounts env host w)
         = {| http_log := http_log w;
              sign_log := (sign_log w ++ [signing_claims env host w])%list;
              uuid_drawn := S (uuid_drawn w) |})
  \/ (credentials_configured env = true
      /\ exists token,
           jose_sign host "HS256" (signing_claims env host w)
             (TextEncoder_encode (SECRET_KEY env)) = Returned token
           /\ snd (getAccounts env host w)
              = {| http_log := (http_log w ++ [accounts_request env token])%list;
                   sign_log := (sign_log w ++ [signing_claims env host w])%list;
                   uuid_drawn := S (uuid_drawn w) |}).
Proof.
  unfold getAccounts, try_catch, bind.
  destruct (credentials_configured env) eqn:Hc.
  - right. rewrite (getAuthHeaders_configured Payload env host w Hc).
    destruct (jose_sign host "HS256" _ _) as [token | cause] eqn:Hs.
    + right. split; [reflexivity |]. exists token. split; [reflexivity |].
      unfold axios_get, ret. cbn [http_log sign_log uuid_drawn].
      fold (accounts_request env token).
      destruct (axios_adapter host (http_log w) _); reflexivity.
    + left. split; [reflexivity |]. split; [exists cause; reflexivity | reflexivity].
  - left. split; [reflexivity |].
    destruct (getAuthHeaders_unconfigured Payload env host w Hc) as [e ->].
    reflexivity.
Qed.

(** The request of a public call is a request of the public client. *)
Lemma public_call_request (c : Call) (w : World) :
  is_public c = true ->
  exists req,
    snd (perform env host c w)
    = {| http_log := (http_log w ++ [req])%list;
         sign_log := sign_log w;
         uuid_drawn := uuid_drawn w |}
    /\ public_request env req.
Proof.
  destruct c as [| market u n | market n cpu | markets |]; intros Hp;
    try discriminate; eexists;
    unfold perform, getMarkets, getMinuteCandles, getDayCandles, getTicker,
      try_catch, bind, publicClient_get, axios_get;
    (destruct (axios_adapter host (http_log w) _);
     cbn [snd ret throw]; (split; [reflexivity |]);
     unfold public_request, effective_base, public_path;
     cbn [baseURL headers url]; repeat split; eauto 6).
Qed.

Lemma perform_http_budget (c : Call) (w : World) :
  exists issued,
    http_log (snd (perform env host c w)) = (http_log w ++ issued)%list
    /\ (List.length issued <= 1)%nat
    /\ (is_public c = true -> List.length issued = 1%nat).
Proof.
  destruct (is_public c) eqn:Hp.
  - destruct (public_call_request c w Hp) as (req & -> & _).
    exists [req]. cbn. auto.
  - destruct c; try discriminate. cbn [perform].
    destruct (getAccounts_world_cases w)
      as [[_ ->] | [(_ & _ & ->) | (_ & token & _ & ->)]].
    + exists []. rewrite app_nil_r. cbn.
      repeat split; solve [reflexivity | lia | discriminate].
    + exists []. cbn [http_log]. rewrite app_nil_r. cbn.
      repeat split; solve [reflexivity | lia | discriminate].
    + exists [accounts_request env token]. cbn.
      repeat split; solve [reflexivity | lia | discriminate].
Qed.

(** X1. The log of requests only grows, by at most one request per call and
    by exactly one per public call: no call retries or fans out. *)
Theorem run_http_log_budget (calls : list Call) (w : World) :
  exists issued,
    http_log (run env host calls w) = (http_log w ++ issued)%list
    /\ (List.length issued <= List.length calls)%nat
    /\ (forallb is_public calls = true -> List.length issued = List.length calls).
Proof.
  revert w. induction calls as [| c rest IH]; intros w.
  - exists []. cbn. rewrite app_nil_r. auto.
  - cbn [run]. destruct (perform_http_budget c w) as (first & Hf & Hle & Heq).
    destruct (IH (snd (perform env host c w))) as (more & Hm & Hle' & Heq').
    exists (first ++ more)%list. rewrite Hm, Hf, <- app_assoc.
    split; [reflexivity |]. rewrite length_app. cbn [List.length forallb].
    split; [lia |]. intros H. apply andb_true_iff in H. destruct H as [H1 H2].
    rewrite (Heq H1), (Heq' H2). reflexivity.
Qed.

Lemma getAccounts_throws_generic (w : World) (e : Thrown) :
  fst (getAccounts env host w) = Threw e -> e = accounts_error.
Proof.
  rewrite getAccounts_outcome.
  destruct (credentials_configured env);
    [destruct (jose_sign host "HS256" _ _);
       [destruct (axios_adapter host (http_log w) _) |] |];
    congruence.
Qed.

(** X2. The only errors a caller can see are the generic account error,
    from [getAccounts], and the transport's own rejection of the request,
    from a public call; the two configuration messages of the signing path
    never reach the caller. *)
Theorem perform_error_taxonomy (c : Call) (w : World) (e : Thrown) :
  fst (perform env host c w) = Threw e ->
  ((c = CallGetAccounts /\ e = accounts_error)
   \/ (is_public c = true
       /\ exists req,
            http_log (snd (perform env host c w)) = (http_log w ++ [req])%list
            /\ axios_adapter host (http_log w) req = Threw e))
  /\ (c = CallGetAccounts ->
      e <> JsError "API 키가 설정되지 않았습니다. .env 파일을 확인해주세요."
      /\ e <> JsError "UPBIT_SECRET_KEY is not configured").
Proof.
  intros He. destruct (is_public c) eqn:Hp.
  - split.
    + right. split; [reflexivity |].
      destruct (public_call_outcome Payload env host c w Hp) as (req & Hl & _ & _ & Hr).
      exists req. split; [exact Hl |]. rewrite <- Hr. exact He.
    + intros ->. discriminate.
  - destruct c; try discriminate. cbn [perform] in He.
    rewrite (getAccounts_throws_generic w e He).
    split; [left; split; reflexivity |].
    intros _. split; discriminate.
Qed.

Lemma signed_request_more (signed more : list Claims) (req : AxiosRequest) :
  signed_request env host signed req ->
  signed_request env host (signed ++ more)%list req.
Proof.
  intros (claims & token & Hin & Hk & Hs & Hr).
  exists claims, token. repeat split; try assumption.
  apply in_or_app. left. exact Hin.
Qed.

Lemma perform_requests_accounted (c : Call) (w : World) :
  requests_accounted env host w ->
  requests_accounted env host (snd (perform env host c w)).
Proof.
  unfold requests_accounted. intros Hw.
  destruct (is_public c) eqn:Hp.
  - destruct (public_call_request c w Hp) as (req & -> & Hreq).
    cbn [http_log sign_log]. apply Forall_app. split; [exact Hw |].
    constructor; [left; exact Hreq | constructor].
  - destruct c; try discriminate. cbn [perform].
    assert (Hold : Forall (fun req =>
                     public_request env req
                     \/ signed_request env host
                          (sign_log w ++ [signing_claims env host w])%list req)
                     (http_log w)).
    { eapply Forall_impl; [| exact Hw]. cbn beta.
      intros req [H | H]; [left; exact H | right; apply signed_request_more, H]. }
    destruct (getAccounts_world_cases w)
      as [[_ ->] | [(_ & _ & ->) | (_ & token & Hs & ->)]];
      cbn [http_log sign_log]; [exact Hw | exact Hold |].
    apply Forall_app. split; [exact Hold |].
    constructor; [| constructor]. right.
    exists (signing_claims env host w), token.
    split; [apply in_or_app; right; left; reflexivity |].
    split; [reflexivity |]. split; [exact Hs | reflexivity].
Qed.

(** X3. Every request a sequence of calls issues is either a request of
    the public client (its base, a quotation path, no header but [Accept])
    or the account request carrying a bearer token that the signer returned
    for a logged claim set with the configured access key: a public request
    never carries a credential and no account request goes out unsigned. *)
Theorem run_requests_accounted (calls : list Call) :
  Forall (fun req =>
            public_request env req
            \/ signed_request env host
                 (sign_log (run env host calls initial_world)) req)
         (http_log (run env host calls initial_world)).
Proof.
  assert (H : forall w, requests_accounted env host w ->
                        requests_accounted env host (run env host calls w)).
  { induction calls as [| c rest IH]; intros w Hw; [exact Hw |].
    cbn [run]. apply IH, perform_requests_accounted, Hw. }
  apply (H initial_world). constructor.
Qed.

(** X4. With both keys configured, a token from the signer and an answer
    from the transport, [getAccounts] returns the body of the answer as it
    is, having drawn one identifier, signed one claim set and issued one
    request: the signed account request. *)
Theorem getAccounts_success (w : World) (token : string) (body : Payload) :
  credentials_configured env = true ->
  jose_sign host "HS256" (signing_claims env host w)
    (TextEncoder_encode (SECRET_KEY env)) = Returned token ->
  axios_adapter host (http_log w) (accounts_request env token) = Returned body ->
  getAccounts env host w
  = (Returned body,
     {| http_log := (http_log w ++ [accounts_request env token])%list;
        sign_log := (sign_log w ++ [signing_claims env host w])%list;
        uuid_drawn := S (uuid_drawn w) |}).
Proof.
  intros Hc Hs Ha. unfold getAccounts, try_catch, bind.
  rewrite (getAuthHeaders_configured Payload env host w Hc), Hs.
  unfold axios_get, ret. cbn [http_log sign_log uuid_drawn].
  fold (accounts_request env token). rewrite Ha. reflexivity.
Qed.

(** X5. When the signer rejects, [getAccounts] fails without contacting
    the transport: the log of requests is unchanged, though an identifier
    was drawn and handed to the signer. *)
Theorem getAccounts_signing_failure_no_request (w : World) (cause : Thrown) :
  credentials_configured env = true ->
  jose_sign host "HS256" (signing_claims env host w)
    (TextEncoder_encode (SECRET_KEY env)) = Threw cause ->
  getAccounts env host w
  = (Threw accounts_error,
     {| http_log := http_log w;
        sign_log := (sign_log w ++ [signing_claims env host w])%list;
        uuid_drawn := S (uuid_drawn w) |}).
Proof.
  intros Hc Hs. unfold getAccounts, try_catch, bind.
  rewrite (getAuthHeaders_configured Payload env host w Hc), Hs.
  reflexivity.
Qed.

Lemma perform_signatures (c : Call) (w : World) :
  let w' := snd (perform env host c w) in
  let signs := if credentials_configured env && negb (is_public c) then 1%nat else 0%nat in
  List.length (sign_log w') = (List.length (sign_log w) + signs)%nat
  /\ uuid_drawn w' = (uuid_drawn w + signs)%nat.
Proof.
  cbn zeta. destruct (is_public c) eqn:Hp.
  - destruct (public_call_request c w Hp) as (req & -> & _).
    rewrite andb_false_r. cbn [sign_log uuid_drawn]. lia.
  - destruct c; try discriminate. cbn [perform negb]. rewrite andb_true_r.
    destruct (getAccounts_world_cases w)
      as [[Hc ->] | [(Hc & _ & ->) | (Hc & token & _ & ->)]];
      rewrite Hc; cbn [sign_log uuid_drawn]; rewrite ?length_app;
      cbn [List.length]; lia.
Qed.

Lemma run_draws (calls : list Call) (w : World) :
  uuid_drawn (run env host calls w)
  = (uuid_drawn w
     + (if credentials_configured env
        then List.length (filter (fun c => negb (is_public c)) calls)
        else 0))%nat.
Proof.
  revert w. induction calls as [| c rest IH]; intros w.
  - cbn [run filter List.length]. destruct (credentials_configured env); lia.
  - cbn [run filter]. rewrite IH.
    destruct (perform_signatures c w) as [_ H]. cbn zeta in H. rewrite H.
    destruct (credentials_configured env), (is_public c);
      cbn [andb negb List.length]; lia.
Qed.

(** X6. Over any sequence of calls the signer is handed, in the order
    drawn, exactly the claim sets made of the access key and of each
    identifier drawn from [uuidv4]: one signing per [getAccounts] call when
    both keys are configured, each of the identifier drawn for that call,
    and none otherwise (not by a public call, not without the keys). *)
Theorem run_signatures_match_draws (calls : list Call) :
  let w := run env host calls initial_world in
  let accounts_calls := List.length (filter (fun c => negb (is_public c)) calls) in
  let signings := if credentials_configured env then accounts_calls else 0%nat in
  sign_log w
  = map (fun i => {| access_key := ACCESS_KEY env; nonce := uuid_source host i |})
        (seq 0 signings)
  /\ uuid_drawn w = signings.
Proof.
  cbn zeta.
  pose proof (run_draws calls initial_world) as Hd.
  cbn [initial_world uuid_drawn Nat.add] in Hd.
  split; [| exact Hd].
  rewrite (run_signs_its_draws Payload env host calls initial_world eq_refl), Hd.
  reflexivity.
Qed.

(** The base of the requests is never empty: the proxy path in
    development, the configured root or its default otherwise. *)
Lemma request_base_cases :
  (if USE_PROXY env then PROXY_BASE_URL else API_BASE_URL env) <> ""
  /\ (DEV env = true ->
      (if USE_PROXY env then PROXY_BASE_URL else API_BASE_URL env) = "/api/upbit")
  /\ (DEV env = false -> truthy (VITE_UPBIT_API_URL env) = false ->
      (if USE_PROXY env then PROXY_BASE_URL else API_BASE_URL env)
      = "https://api.upbit.com")
  /\ (forall u, DEV env = false -> VITE_UPBIT_API_URL env = Some u -> u <> "" ->
      (if USE_PROXY env then PROXY_BASE_URL else API_BASE_URL env) = u).
Proof.
  unfold API_BASE_URL, or_default, truthy, USE_PROXY, PROXY_BASE_URL.
  destruct (DEV env).
  - repeat split; try discriminate.
  - destruct (VITE_UPBIT_API_URL env) as [u |].
    + destruct (String.eqb_spec u "") as [-> | Hu]; cbn [negb].
      * repeat split; try discriminate.
        intros u' _ [= <-] H. congruence.
      * repeat split; try assumption; try discriminate.
        intros u' _ [= <-] _. reflexivity.
    + repeat split; try discriminate.
Qed.

Lemma perform_sent_to_base (c : Call) (w : World) :
  Forall (sent_to (if USE_PROXY env then PROXY_BASE_URL else API_BASE_URL env))
         (http_log w) ->
  Forall (sent_to (if USE_PROXY env then PROXY_BASE_URL else API_BASE_URL env))
         (http_log (snd (perform env host c w))).
Proof.
  intros Hw. destruct (is_public c) eqn:Hp.
  - destruct (public_call_request c w Hp) as (req & -> & Hb & _).
    cbn [http_log]. apply Forall_app. split; [exact Hw |].
    constructor; [left; exact Hb | constructor].
  - destruct c; try discriminate. cbn [perform].
    destruct (getAccounts_world_cases w)
      as [[_ ->] | [(_ & _ & ->) | (_ & token & _ & ->)]];
      cbn [http_log]; try exact Hw.
    apply Forall_app. split; [exact Hw |].
    constructor; [right; split; reflexivity | constructor].
Qed.

Lemma run_sent_to_base (calls : list Call) (w : World) :
  Forall (sent_to (if USE_PROXY env then PROXY_BASE_URL else API_BASE_URL env))
         (http_log w) ->
  Forall (sent_to (if USE_PROXY env then PROXY_BASE_URL else API_BASE_URL env))
         (http_log (run env host calls w)).
Proof.
  revert w. induction calls as [| c rest IH]; intros w Hw; [exact Hw |].
  cbn [run]. apply IH, perform_sent_to_base, Hw.
Qed.

Lemma sent_to_one_base (b b' : string) (req : AxiosRequest) :
  sent_to b req -> sent_to b' req -> b = b'.
Proof.
  intros [H | [H U]] [H' | [H' U']]; try congruence.
  rewrite U in U'. clear - U'.
  revert b' U'. induction b as [| a b IH]; intros [| a' b'] E; cbn in E.
  - reflexivity.
  - exfalso. apply (f_equal String.length) in E. cbn in E.
    rewrite length_append in E. cbn in E. lia.
  - exfalso. apply (f_equal String.length) in E. cbn in E.
    rewrite length_append in E. cbn in E. lia.
  - injection E as -> E. f_equal. apply IH, E.
Qed.

(** X7. Every request a sequence of calls issues, public or signed, goes to
    one base chosen by the environment: the proxy path [/api/upbit] in
    development; otherwise [https://api.upbit.com] when
    [VITE_UPBIT_API_URL] is unset or empty, and the configured value when
    it is not. No request is ever sent to an empty base. *)
Theorem run_requests_go_to_one_base (calls : list Call) :
  let log := http_log (run env host calls initial_world) in
  (DEV env = true -> Forall (sent_to "/api/upbit") log)
  /\ (DEV env = false -> truthy (VITE_UPBIT_API_URL env) = false ->
      Forall (sent_to "https://api.upbit.com") log)
  /\ (forall u, DEV env = false -> VITE_UPBIT_API_URL env = Some u -> u <> "" ->
      Forall (sent_to u) log)
  /\ Forall (fun req => ~ sent_to "" req) log.
Proof.
  cbn zeta.
  pose proof (run_sent_to_base calls initial_world (Forall_nil _)) as H.
  destruct request_base_cases as (Hne & Hdev & Hdef & Hset).
  split; [| split; [| split]].
  - intros Hd. rewrite <- (Hdev Hd). exact H.
  - intros Hd Hu. rewrite <- (Hdef Hd Hu). exact H.
  - intros u Hd Hu Hn. rewrite <- (Hset u Hd Hu Hn). exact H.
  - eapply Forall_impl; [| exact H]. cbn beta.
    intros req Hb He. apply Hne. exact (sent_to_one_base _ _ req Hb He).
Qed.

End ClientRuns.

(** *** The query value of [getTicker] *)

Lemma comma_split_unique (x y r1 r2 : string) :
  comma_free x = true -> comma_free y = true ->
  x ++ "," ++ r1 = y ++ "," ++ r2 -> x = y /\ r1 = r2.
Proof.
  revert y. induction x as [| c x IH]; intros [| c' y] Hx Hy H; cbn in H.
  - injection H as ->. split; reflexivity.
  - injection H as <- _. cbn in Hy. discriminate.
  - injection H as -> _. cbn in Hx. discriminate.
  - injection H as <- H. cbn [comma_free] in Hx, Hy.
    apply andb_true_iff in Hx, Hy.
    destruct (IH y (proj2 Hx) (proj2 Hy) H) as [-> ->]. split; reflexivity.
Qed.

Lemma comma_free_never_splits (x y r : string) :
  comma_free y = true -> x ++ "," ++ r <> y.
Proof.
  revert y. induction x as [| c x IH]; intros [| c' y] Hy H; cbn in H;
    try discriminate.
  - injection H as <- _. cbn in Hy. discriminate.
  - injection H as _ H. cbn [comma_free] in Hy. apply andb_true_iff in Hy.
    exact (IH y (proj2 Hy) H).
Qed.

Lemma comma_join_injective (ms1 ms2 : list string) :
  ms1 <> [] -> ms2 <> [] ->
  forallb comma_free ms1 = true -> forallb comma_free ms2 = true ->
  String.concat "," ms1 = String.concat "," ms2 -> ms1 = ms2.
Proof.
  revert ms2. induction ms1 as [| x xs IH]; intros [| y ys] H1 H2 Hf1 Hf2 H;
    try congruence.
  cbn [forallb] in Hf1, Hf2. apply andb_true_iff in Hf1, Hf2.
  destruct Hf1 as [Hx Hxs], Hf2 as [Hy Hys].
  destruct xs as [| x' xs], ys as [| y' ys].
  - cbn in H. congruence.
  - exfalso. symmetry in H. exact (comma_free_never_splits _ _ _ Hx H).
  - exfalso. exact (comma_free_never_splits _ _ _ Hy H).
  - change (x ++ "," ++ String.concat "," (x' :: xs)
            = y ++ "," ++ String.concat "," (y' :: ys)) in H.
    destruct (comma_split_unique _ _ _ _ Hx Hy H) as [-> Ht].
    f_equal. apply IH; try discriminate; assumption.
Qed.

Lemma getTicker_log {Payload} (env : ImportMetaEnv) (host : Host Payload)
    (markets : list string) (w : World) :
  http_log (snd (getTicker env host markets w))
  = (http_log w ++ [ticker_request env markets])%list.
Proof.
  unfold getTicker, try_catch, bind, publicClient_get, axios_get.
  destruct (axios_adapter host (http_log w) _); reflexivity.
Qed.

(** X8. The request of [getTicker] determines the list of markets: two
    non-empty lists of codes without commas that lead to the same log are
    the same list. The empty list and the list of one empty code are not
    told apart: both send an empty [markets] value. *)
Theorem getTicker_request_determines_markets
    {Payload} (env : ImportMetaEnv) (host : Host Payload) (w : World) :
  (forall ms1 ms2 : list string,
     ms1 <> [] -> ms2 <> [] ->
     forallb comma_free ms1 = true -> forallb comma_free ms2 = true ->
     http_log (snd (getTicker env host ms1 w))
     = http_log (snd (getTicker env host ms2 w)) ->
     ms1 = ms2)
  /\ http_log (snd (getTicker env host [] w))
     = http_log (snd (getTicker env host [""] w)).
Proof.
  split.
  - intros ms1 ms2 H1 H2 Hf1 Hf2 H. rewrite !getTicker_log in H.
    apply app_inv_head in H. injection H as H.
    exact (comma_join_injective ms1 ms2 H1 H2 Hf1 Hf2 H).
  - rewrite !getTicker_log. reflexivity.
Qed.

(** *** What the converters keep *)

(** X9. Two lists of candles convert to the same chart data exactly when
    they have the same length and agree, candle by candle, on the six
    fields the converters read: nothing of those fields is lost and
    nothing else (such as the market) is kept. *)
Theorem converters_keep_the_six_fields :
  (forall a b : list MinuteCandle.t,
     convertMinuteCandleToChartData a = convertMinuteCandleToChartData b
     <-> Forall2 same_minute_chart_fields a b)
  /\ (forall a b : list DayCandle.t,
        convertDayCandleToChartData a = convertDayCandleToChartData b
        <-> Forall2 same_day_chart_fields a b).
Proof.
  split; intros a b; split.
  - revert b. induction a as [| x a IH]; intros [| y b] H; cbn in H;
      try discriminate; constructor.
    + injection H as Ht Ho Hh Hl Hc Hv _. repeat split; assumption.
    + injection H as _ _ _ _ _ _ H. apply IH, H.
  - induction 1 as [| x y a b (Ht & Ho & Hh & Hl & Hc & Hv) _ IH]; [reflexivity |].
    cbn [convertMinuteCandleToChartData map]. f_equal; [| exact IH].
    rewrite Ht, Ho, Hh, Hl, Hc, Hv. reflexivity.
  - revert b. induction a as [| x a IH]; intros [| y b] H; cbn in H;
      try discriminate; constructor.
    + injection H as Ht Ho Hh Hl Hc Hv _. repeat split; assumption.
    + injection H as _ _ _ _ _ _ H. apply IH, H.
  - induction 1 as [| x y a b (Ht & Ho & Hh & Hl & Hc & Hv) _ IH]; [reflexivity |].
    cbn [convertDayCandleToChartData map]. f_equal; [| exact IH].
    rewrite Ht, Ho, Hh, Hl, Hc, Hv. reflexivity.
Qed.

(** *** Reading a formatted price back *)

Lemma digit_value_digit_char (d : Z) :
  0 <= d < 10 -> digit_value (digit_char d) = Some d.
Proof.
  intros H.
  assert (C : d = 0 \/ d = 1 \/ d = 2 \/ d = 3 \/ d = 4 \/ d = 5 \/ d = 6
              \/ d = 7 \/ d = 8 \/ d = 9) by lia.
  repeat (destruct C as [-> | C]; [reflexivity |]). subst d. reflexivity.
Qed.

Lemma parse_digits_append (a b : string) (acc : Z) :
  parse_digits (a ++ b) acc
  = match parse_digits a acc with
    | Some v => parse_digits b v
    | None => None
    end.
Proof.
  revert acc. induction a as [| c a IH]; intros acc; cbn; [reflexivity |].
  destruct (digit_value c); [apply IH | reflexivity].
Qed.

Lemma parse_digits_decimal (n : Z) : 0 <= n -> parse_digits (decimal n) 0 = Some n.
Proof.
  revert n. apply decimal_induction.
  - intros n Hn. rewrite decimal_small by exact Hn. cbn [parse_digits].
    rewrite digit_value_digit_char by exact Hn. f_equal; lia.
  - intros n Hn IH. rewrite decimal_step by exact Hn.
    rewrite parse_digits_append, IH. cbn [parse_digits].
    rewrite digit_value_digit_char by (apply Z.mod_pos_bound; lia).
    f_equal. pose proof (Z.div_mod n 10 ltac:(lia)). lia.
Qed.

Lemma parse_decimal_decimal (n : Z) : 0 <= n -> parse_decimal (decimal n) = Some n.
Proof.
  intros Hn. pose proof (decimal_nonempty n Hn) as Hl.
  pose proof (parse_digits_decimal n Hn) as Hp.
  unfold parse_decimal. destruct (decimal n); [cbn in Hl; lia | exact Hp].
Qed.

Lemma is_digit_not_separator (c : ascii) :
  is_digit c = true -> Ascii.eqb c ","%char = false /\ Ascii.eqb c "-"%char = false.
Proof.
  intros H. split; apply Ascii.eqb_neq; intros ->; discriminate.
Qed.

Lemma remove_commas_insert_separators (digits : string) :
  all_digits digits = true -> remove_commas (insert_separators digits) = digits.
Proof.
  induction digits as [| c rest IH]; [reflexivity |].
  cbn [all_digits]. intros H. apply andb_true_iff in H. destruct H as [Hc Hr].
  cbn [insert_separators remove_commas].
  rewrite (proj1 (is_digit_not_separator c Hc)).
  destruct ((0 <? strlen rest) && (strlen rest mod 3 =? 0));
    cbn [remove_commas Ascii.eqb Bool.eqb]; rewrite (IH Hr); reflexivity.
Qed.

(** The text of a formatted price, with the integer it shows. *)
Lemma formatPrice_explicit (amount : number) (num0 den0 : Z) :
  is_double amount = true ->
  magnitude amount = Some (num0, den0) ->
  num0 < 2 ^ 53 * den0 ->
  exists n,
    round_half_up amount = Some n
    /\ (if sign_bit amount then n <= 0 else 0 <= n)
    /\ formatPrice amount
       = (if sign_bit amount then "-" else "") ++ insert_separators (decimal (Z.abs n)).
Proof.
  intros Hd Hm0 Hlt0. destruct amount as [s | s | | s m e]; try discriminate.
  - exists 0. split; [reflexivity |]. split; [destruct s; cbn; lia | reflexivity].
  - magnitude_of_finite Hm0.
    unfold formatPrice, Math_round, round_half_up. cbn [sign_bit].
    destruct (Z.leb_spec 0 e) as [He | He].
    + rewrite (Z.max_l e 0), (Z.max_r (- e) 0) in Hlt0 by lia.
      change (2 ^ 0) with 1 in Hlt0.
      rewrite (Z.max_l e 0), (Z.max_r (- e) 0) by lia. change (2 ^ 0) with 1.
      assert (HA : 0 < Z.pos m * 2 ^ e).
      { apply Z.mul_pos_pos; [lia | apply Z.pow_pos_nonneg; lia]. }
      set (A := Z.pos m * 2 ^ e) in *.
      assert (Hn : (2 * cond_Zopp s A + 1) / (2 * 1) = cond_Zopp s A).
      { rewrite Z.mul_1_r, Z.add_comm, Z.mul_comm, Z.div_add by lia. reflexivity. }
      rewrite Hn. exists (cond_Zopp s A). split; [reflexivity |].
      split; [destruct s; cbn [cond_Zopp]; lia |].
      replace (Z.abs (cond_Zopp s A)) with A by (destruct s; cbn [cond_Zopp]; lia).
      apply format_integral; [| lia].
      rewrite (Z.max_l e 0), (Z.max_r (- e) 0) by lia.
      change (2 ^ 0) with 1. subst A. lia.
    + destruct (is_double_finite s m e Hd) as (_ & _ & _ & Hm53).
      rewrite (Z.max_r e 0), (Z.max_l (- e) 0) by lia. change (2 ^ 0) with 1.
      rewrite Z.mul_1_r.
      set (D := 2 ^ (- e)).
      assert (HD : 2 <= D).
      { unfold D. change 2 with (2 ^ 1) at 1. apply Z.pow_le_mono_r; lia. }
      replace (2 ^ (1 - e)) with (2 * D)
        by (unfold D; replace (1 - e) with (Z.succ (- e)) by lia;
            rewrite Z.pow_succ_r by lia; reflexivity).
      remember (2 * cond_Zopp s (Z.pos m) + D) as N eqn:HN.
      pose proof (Z.div_mod N (2 * D) ltac:(lia)) as Hdm.
      pose proof (Z.mod_pos_bound N (2 * D) ltac:(lia)) as Hmb.
      remember (N / (2 * D)) as n eqn:Hndef.
      remember (N mod (2 * D)) as r eqn:Hrdef.
      exists n. split; [reflexivity |].
      assert (Hsgn : if s then n <= 0 else 0 <= n).
      { destruct s; cbn [cond_Zopp] in *; nia. }
      split; [exact Hsgn |].
      destruct (Z.eqb_spec n 0) as [Hn0 | Hn0].
      * rewrite Hn0. reflexivity.
      * assert (Hsign : (n <? 0) = s).
        { destruct s; [apply Z.ltb_lt | apply Z.ltb_ge]; lia. }
        assert (Hbound : 0 < Z.abs n < 2 ^ 53).
        { split; [lia |]. destruct s; cbn [cond_Zopp] in *; nia. }
        destruct (number_of_Z_exact n Hbound) as (mz & ez & Hz & Hez & Hmz).
        rewrite Hz, Hsign. apply format_integral; [| lia].
        rewrite (Z.max_r ez 0), (Z.max_l (- ez) 0) by lia.
        change (2 ^ 0) with 1. lia.
Qed.

(** X10. Reading a formatted price back gives the amount rounded half
    up: for every finite amount below [2^53] in magnitude, the text of
    [formatPrice] without its commas denotes [floor (amount + 1/2)], so a
    half rounds towards plus infinity (2.5 shows 3 and -2.5 shows -2).
    Beyond that range the text need not read back to the amount: [2^56]
    reads back as 72057594037927940. *)
Theorem formatPrice_reads_back :
  (forall (amount : number) (num den : Z),
     is_double amount = true ->
     magnitude amount = Some (num, den) ->
     num < 2 ^ 53 * den ->
     parse_price (formatPrice amount) = round_half_up amount)
  /\ parse_price (formatPrice (number_of_Z (2 ^ 56))) = Some 72057594037927940
  /\ round_half_up (number_of_Z (2 ^ 56)) = Some 72057594037927936.
Proof.
  split; [| split; vm_compute; reflexivity].
  intros amount num den Hd Hm Hlt.
  destruct (formatPrice_explicit amount num den Hd Hm Hlt) as (n & Hr & Hs & Ht).
  rewrite Hr, Ht.
  pose proof (decimal_all_digits (Z.abs n) (Z.abs_nonneg n)) as Hall.
  pose proof (parse_decimal_decimal (Z.abs n) (Z.abs_nonneg n)) as Hp.
  pose proof (remove_commas_insert_separators _ Hall) as Hrm.
  destruct (sign_bit amount).
  - cbn [append parse_price Ascii.eqb Bool.eqb]. rewrite Hrm, Hp.
    cbn [option_map]. f_equal. lia.
  - cbn [append].
    destruct (decimal (Z.abs n)) as [| c rest] eqn:Hdec; [discriminate Hp |].
    cbn [all_digits] in Hall. apply andb_true_iff in Hall.
    cbn [insert_separators] in *. unfold parse_price.
    rewrite (proj2 (is_digit_not_separator c (proj1 Hall))).
    rewrite Hrm, Hp. f_equal. lia.
Qed.

(** *** The sign of a percentage *)

(** Rounding an exact non-zero value never loses its sign: the result is a
    non-zero number or the infinity of that sign. *)
Lemma binary_round_aux_keeps_sign (s : bool) (P : positive) (E : Z) :
  let d := Z.pos (digits2_pos P) in
  let e1 := Z.max (d + E - 53) (-1074) in
  let k := e1 - E in
  0 <= k -> 2 ^ k <= Z.pos P ->
  (exists m' e',
     binary_round_aux prec emax s (Z.pos P) E loc_Exact = S754_finite s m' e')
  \/ binary_round_aux prec emax s (Z.pos P) E loc_Exact = S754_infinity s.
Proof.
  intros d e1 k Hk HP.
  pose proof (digits2_pos_bounds P) as [Hlo Hhi]. fold d in Hlo, Hhi.
  assert (H2k : 0 < 2 ^ k) by (apply Z.pow_pos_nonneg; lia).
  assert (Hshift : exists mrs,
             shr_fexp prec emax (Z.pos P) E loc_Exact = (mrs, e1)
             /\ shr_m mrs = Z.pos P / 2 ^ k).
  { unfold shr_fexp, shr_record_of_loc, Zdigits2, fexp, emin, prec, emax.
    fold d. change (3 - 1024 - 53) with (-1074). fold e1. fold k.
    destruct k as [| kp | kp] eqn:Ek; [| | lia].
    - eexists. cbn [shr]. split; [f_equal; lia |]. cbn [shr_m].
      rewrite Z.div_1_r. reflexivity.
    - eexists. cbn [shr]. split; [f_equal; lia |].
      rewrite iter_pos_nat.
      pose proof (iter_shr_1_spec (Pos.to_nat kp) (Z.pos P) ltac:(lia)) as Hi.
      cbn zeta in Hi. rewrite positive_nat_Z in Hi. exact (proj1 Hi). }
  destruct Hshift as (mrs & Hs1 & Hq).
  set (q := Z.pos P / 2 ^ k) in *.
  assert (Hq1 : 1 <= q) by (unfold q; apply Z.div_le_lower_bound; lia).
  assert (Hq53 : q < 2 ^ 53).
  { unfold q. apply Z.div_lt_upper_bound; [lia |].
    apply Z.lt_le_trans with (1 := Hhi).
    rewrite <- Z.pow_add_r by lia. apply Z.pow_le_mono_r; lia. }
  pose proof (round_nearest_even_shr mrs) as Hrne. cbn zeta in Hrne.
  set (q' := round_nearest_even (shr_m mrs) (loc_of_shr_record mrs)) in *.
  rewrite Hq in Hrne.
  assert (Hq' : 1 <= q' <= 2 ^ 53) by lia.
  unfold binary_round_aux. rewrite Hs1. fold q'.
  destruct q' as [| qp | qp] eqn:Eq'; [lia | | lia].
  pose proof (digits2_pos_bounds qp) as [Hqlo Hqhi].
  destruct (Z.eq_dec (Z.pos qp) (2 ^ 53)) as [Htop | Hntop].
  - unfold shr_fexp, shr_record_of_loc, Zdigits2, fexp, emin, prec, emax.
    injection Htop as ->. cbn [digits2_pos Pos.succ].
    change (3 - 1024 - 53) with (-1074).
    replace (Z.max (54 + e1 - 53) (-1074) - e1) with 1 by lia.
    cbn [shr iter_pos shr_1 shr_m].
    destruct (Z.leb_spec (e1 + 1) (1024 - 53)); [left; eauto | right; reflexivity].
  - assert (Hdig : Z.pos (digits2_pos qp) <= 53).
    { destruct (Z_le_gt_dec (Z.pos (digits2_pos qp)) 53) as [| Hgt]; [assumption |].
      assert (2 ^ 53 <= 2 ^ (Z.pos (digits2_pos qp) - 1)) by (apply Z.pow_le_mono_r; lia).
      lia. }
    unfold shr_fexp, shr_record_of_loc, Zdigits2, fexp, emin, prec, emax.
    change (3 - 1024 - 53) with (-1074).
    assert (Hn : Z.max (Z.pos (digits2_pos qp) + e1 - 53) (-1074) - e1 <= 0) by lia.
    destruct (Z.max (Z.pos (digits2_pos qp) + e1 - 53) (-1074) - e1) as [| np | np];
      [| lia |]; cbn [shr shr_m];
      (destruct (Z.leb_spec e1 (1024 - 53)); [left; eauto | right; reflexivity]).
Qed.

(** The product by 100 of a non-zero double keeps the sign of the double. *)
Lemma product_keeps_sign (s : bool) (m : positive) (e : Z) :
  is_double (S754_finite s m e) = true ->
  (exists m' e', js_mul (S754_finite s m e) (number_of_Z 100) = S754_finite s m' e')
  \/ js_mul (S754_finite s m e) (number_of_Z 100) = S754_infinity s.
Proof.
  intros Hdbl.
  destruct (is_double_finite s m e Hdbl) as (_ & Herange & _ & _).
  rewrite hundred_as_double. unfold js_mul. cbn [SFmul]. rewrite xorb_false_r.
  set (P := (m * 7036874417766400)%positive). set (E := e + -46).
  pose proof (digits2_pos_bounds P) as [Hlo Hhi].
  set (d := Z.pos (digits2_pos P)) in *.
  assert (HP : Z.pos P = Z.pos m * 7036874417766400) by reflexivity.
  assert (Hd53 : 53 <= d).
  { destruct (Z_le_gt_dec 53 d) as [| Hgt]; [assumption |].
    assert (2 ^ d <= 2 ^ 52) by (apply Z.pow_le_mono_r; lia). lia. }
  apply binary_round_aux_keeps_sign; fold d.
  - lia.
  - destruct (Z.max_spec (d + E - 53) (-1074)) as [[_ ->] | [_ ->]].
    + apply Z.le_trans with (2 ^ 46); [apply Z.pow_le_mono_r; unfold E; lia | lia].
    + apply Z.le_trans with (2 ^ (d - 1)); [apply Z.pow_le_mono_r; lia | lia].
Qed.

(** X11. A percentage always shows its sign: for every double but NaN the
    text of [formatChangeRate] begins with [+] when the rate is not
    negative and with [-] when it is negative, however small or large the
    rate; NaN gives [NaN%]. *)
Theorem formatChangeRate_shows_sign (rate : number) :
  is_double rate = true ->
  (rate = S754_nan /\ formatChangeRate rate = "NaN%")
  \/ (non_negative rate = true
      /\ exists rest, formatChangeRate rate = String "+" rest)
  \/ (strictly_negative rate = true
      /\ exists rest, formatChangeRate rate = String "-" rest).
Proof.
  intros Hd. unfold formatChangeRate. rewrite js_ge_zero.
  destruct rate as [s | [|] | | [|] m e].
  - right. left. split; [reflexivity |]. cbn [non_negative append]. eauto.
  - right. right. split; [reflexivity |]. cbn. eauto.
  - right. left. split; [reflexivity |]. cbn [non_negative negb append]. eauto.
  - left. split; reflexivity.
  - right. right. split; [reflexivity |]. cbn [non_negative negb append].
    destruct (product_keeps_sign true m e Hd) as [(m' & e' & ->) | ->].
    + cbn [Number_toFixed append]. eauto.
    + cbn. eauto.
  - right. left. split; [reflexivity |]. cbn [non_negative negb append]. eauto.
Qed.

(** ** Properties of the coin grid section *)

Section CoinsSectionProperties.

Variable CoinData : Type.
Variable HistoricalInvestment : Type.
Variable coin_id : CoinData -> string.
Variable MOCK_COINS : list CoinData.
Variable HISTORICAL_DATA : string -> option HistoricalInvestment.

Lemma settled_step (c : Mounted CoinData HistoricalInvestment) (ev : SectionEvent) :
  settled c -> settled (section_step coin_id MOCK_COINS HISTORICAL_DATA c ev).
Proof.
  unfold settled. intros [Ht Hq]. destruct ev as [index | |]; cbn [section_step].
  - destruct (nth_error MOCK_COINS index) as [coin |].
    + split; [exact Ht |]. cbn. discriminate.
    + split; assumption.
  - split.
    + cbn [handleCloseModal timers]. apply Forall_app. split; [exact Ht |].
      constructor; [| constructor]. intros st. split; [split |]; reflexivity.
    + cbn [handleCloseModal timers]. intros _ H.
      destruct (timers c); discriminate H.
  - unfold fire_timer. revert Ht Hq.
    destruct (timers c) as [| callback rest] eqn:Hc; intros Ht Hq.
    + rewrite Hc. split; assumption.
    + inversion Ht as [| ? ? Hcb Hrest]; subst. split; [exact Hrest |].
      cbn [hooks timers]. intros _ _. apply Hcb.
Qed.

(** X12. Whatever the order of clicks, closings and timers since the
    section was mounted: when the modal is closed and no timer is pending,
    no coin and no historical data remain selected. *)
Theorem closed_and_quiet_selects_nothing (events : list SectionEvent) :
  let c := section_run coin_id MOCK_COINS HISTORICAL_DATA events mounted in
  isModalOpen (hooks c) = false -> timers c = [] -> nothing_selected (hooks c).
Proof.
  cbn zeta.
  assert (H : forall c : Mounted CoinData HistoricalInvestment,
             settled c ->
             settled (section_run coin_id MOCK_COINS HISTORICAL_DATA events c)).
  { induction events as [| ev rest IH]; intros c Hc; [exact Hc |].
    cbn [section_run fold_left]. apply IH, settled_step, Hc. }
  apply (H mounted). split; [constructor |]. intros _ _. split; reflexivity.
Qed.

(** X13. Opening and closing: a click on a card opens the modal on that
    coin and its entry of the historical data; closing hides the modal at
    once but keeps both selected until the timer runs; after the timer the
    section is as it was when mounted. *)
Theorem open_close_cycle
    (c : Mounted CoinData HistoricalInvestment) (index : nat) (coin : CoinData) :
  timers c = [] ->
  nth_error MOCK_COINS index = Some coin ->
  let history :=
    match HISTORICAL_DATA (coin_id coin) with
    | Some h => Value h
    | None => Undefined
    end in
  hooks (section_run coin_id MOCK_COINS HISTORICAL_DATA [CardClicked index] c)
  = {| selectedCoin := Value coin;
       selectedHistoricalData := history;
       isModalOpen := true |}
  /\ hooks (section_run coin_id MOCK_COINS HISTORICAL_DATA
              [CardClicked index; ModalClosed] c)
     = {| selectedCoin := Value coin;
          selectedHistoricalData := history;
          isModalOpen := false |}
  /\ section_run coin_id MOCK_COINS HISTORICAL_DATA
       [CardClicked index; ModalClosed; TimerFired] c
     = mounted.
Proof.
  intros Ht Hi. cbn zeta.
  cbn [section_run fold_left section_step]. rewrite Hi.
  unfold handleCloseModal, handleCoinClick, fire_timer.
  cbn [hooks timers]. rewrite Ht. repeat split.
Qed.

(** X14. A click that comes after a closing but before its timer is
    undone by the timer: the modal stays open, with no coin and no
    historical data selected. *)
Theorem reopening_before_the_timer_empties_the_modal
    (c : Mounted CoinData HistoricalInvestment) (index : nat) (coin : CoinData) :
  timers c = [] ->
  nth_error MOCK_COINS index = Some coin ->
  section_run coin_id MOCK_COINS HISTORICAL_DATA
    [ModalClosed; CardClicked index; TimerFired] c
  = {| hooks := {| selectedCoin := Null;
                   selectedHistoricalData := Null;
                   isModalOpen := true |};
       timers := [] |}.
Proof.
  intros Ht Hi.
  cbn [section_run fold_left section_step]. rewrite Hi.
  unfold handleCloseModal, handleCoinClick, fire_timer.
  cbn [hooks timers]. rewrite Ht. reflexivity.
Qed.

End CoinsSectionProperties.

(** ** The further properties on concrete runs *)

Lemma run_http_log_budget_witness :
  forallb is_public [CallGetMarkets; CallGetTicker ["KRW-BTC"]] = true
  /\ exists issued,
       http_log (run sample_env offline_host
                   [CallGetMarkets; CallGetTicker ["KRW-BTC"]] initial_world)
       = ([] ++ issued)%list
       /\ List.length issued = 2%nat.
Proof.
  assert (Hp : forallb is_public [CallGetMarkets; CallGetTicker ["KRW-BTC"]] = true)
    by reflexivity.
  split; [exact Hp |].
  destruct (run_http_log_budget string sample_env offline_host
              [CallGetMarkets; CallGetTicker ["KRW-BTC"]] initial_world)
    as (issued & Hl & _ & He).
  exists issued. split; [exact Hl | exact (He Hp)].
Defined.

Lemma perform_error_taxonomy_witness :
  fst (perform sample_env offline_host CallGetAccounts initial_world)
  = Threw accounts_error
  /\ ((CallGetAccounts = CallGetAccounts /\ accounts_error = accounts_error)
      \/ (is_public CallGetAccounts = true
          /\ exists req,
               http_log (snd (perform sample_env offline_host CallGetAccounts
                                initial_world))
               = (http_log initial_world ++ [req])%list
               /\ axios_adapter offline_host (http_log initial_world) req
                  = Threw accounts_error)).
Proof.
  assert (H : fst (perform sample_env offline_host CallGetAccounts initial_world)
              = Threw accounts_error) by reflexivity.
  split; [exact H |].
  exact (proj1 (perform_error_taxonomy string sample_env offline_host
                  CallGetAccounts initial_world accounts_error H)).
Defined.

Lemma getAccounts_success_witness :
  credentials_configured sample_env = true
  /\ getAccounts sample_env online_host initial_world
     = (Returned "[]",
        {| http_log := [accounts_request sample_env "jwt.uuid-"];
           sign_log := [{| access_key := Some "ak"; nonce := "uuid-" |}];
           uuid_drawn := 1 |}).
Proof.
  split; [reflexivity |].
  apply (getAccounts_success string sample_env online_host initial_world
           "jwt.uuid-" "[]"); reflexivity.
Defined.

Lemma getAccounts_signing_failure_no_request_witness :
  credentials_configured sample_env = true
  /\ getAccounts sample_env unsigning_host initial_world
     = (Threw accounts_error,
        {| http_log := [];
           sign_log := [{| access_key := Some "ak"; nonce := "uuid-" |}];
           uuid_drawn := 1 |}).
Proof.
  split; [reflexivity |].
  apply (getAccounts_signing_failure_no_request string sample_env unsigning_host
           initial_world (Rejection Jose "ERR_JWS_INVALID")); reflexivity.
Defined.

Lemma run_requests_go_to_one_base_witness :
  DEV sample_env = false
  /\ truthy (VITE_UPBIT_API_URL sample_env) = false
  /\ List.length (http_log (run sample_env online_host
                              [CallGetMarkets; CallGetAccounts] initial_world))
     = 2%nat
  /\ Forall (sent_to "https://api.upbit.com")
            (http_log (run sample_env online_host
                         [CallGetMarkets; CallGetAccounts] initial_world)).
Proof.
  assert (Hd : DEV sample_env = false) by reflexivity.
  assert (Hu : truthy (VITE_UPBIT_API_URL sample_env) = false) by reflexivity.
  split; [exact Hd |]. split; [exact Hu |]. split; [reflexivity |].
  destruct (run_requests_go_to_one_base string sample_env online_host
              [CallGetMarkets; CallGetAccounts]) as (_ & H & _ & _).
  exact (H Hd Hu).
Defined.

Lemma getTicker_request_determines_markets_witness :
  ["KRW-BTC"; "KRW-ETH"] <> []
  /\ forallb comma_free ["KRW-BTC"; "KRW-ETH"] = true
  /\ ["KRW-BTC"; "KRW-ETH"] = ["KRW-BTC"; "KRW-ETH"].
Proof.
  assert (Hn : ["KRW-BTC"; "KRW-ETH"] <> []) by discriminate.
  assert (Hf : forallb comma_free ["KRW-BTC"; "KRW-ETH"] = true) by reflexivity.
  split; [exact Hn |]. split; [exact Hf |].
  exact (proj1 (getTicker_request_determines_markets sample_env offline_host
                  initial_world)
           ["KRW-BTC"; "KRW-ETH"] ["KRW-BTC"; "KRW-ETH"] Hn Hn Hf Hf eq_refl).
Defined.

Lemma converters_keep_the_six_fields_witness :
  convertMinuteCandleToChartData [sample_minute_candle]
  = convertMinuteCandleToChartData [sample_minute_candle]
  /\ Forall2 same_minute_chart_fields [sample_minute_candle] [sample_minute_candle].
Proof.
  split; [reflexivity |].
  exact (proj1 (proj1 converters_keep_the_six_fields
                  [sample_minute_candle] [sample_minute_candle]) eq_refl).
Defined.

Lemma formatPrice_reads_back_witness :
  is_double (decimal_literal 25 1) = true
  /\ magnitude (decimal_literal 25 1) = Some (5629499534213120, 2 ^ 51)
  /\ 5629499534213120 < 2 ^ 53 * 2 ^ 51
  /\ round_half_up (decimal_literal 25 1) = Some 3
  /\ parse_price (formatPrice (decimal_literal 25 1)) = Some 3.
Proof.
  split; [vm_compute; reflexivity |]. split; [vm_compute; reflexivity |].
  split; [vm_compute; reflexivity |]. split; [vm_compute; reflexivity |].
  rewrite (proj1 formatPrice_reads_back (decimal_literal 25 1)
             5629499534213120 (2 ^ 51));
    vm_compute; reflexivity.
Defined.

Lemma formatChangeRate_shows_sign_witness :
  is_double (js_neg (decimal_literal 1 5)) = true
  /\ ((js_neg (decimal_literal 1 5) = S754_nan
       /\ formatChangeRate (js_neg (decimal_literal 1 5)) = "NaN%")
      \/ (non_negative (js_neg (decimal_literal 1 5)) = true
          /\ exists rest,
               formatChangeRate (js_neg (decimal_literal 1 5)) = String "+" rest)
      \/ (strictly_negative (js_neg (decimal_literal 1 5)) = true
          /\ exists rest,
               formatChangeRate (js_neg (decimal_literal 1 5)) = String "-" rest)).
Proof.
  assert (H : is_double (js_neg (decimal_literal 1 5)) = true)
    by (vm_compute; reflexivity).
  split; [exact H |].
  exact (formatChangeRate_shows_sign (js_neg (decimal_literal 1 5)) H).
Defined.

Lemma closed_and_quiet_selects_nothing_witness :
  isModalOpen (hooks (section_run (fun c : string => c) sample_coins sample_history
                        [CardClicked 0; ModalClosed; TimerFired] mounted)) = false
  /\ timers (section_run (fun c : string => c) sample_coins sample_history
               [CardClicked 0; ModalClosed; TimerFired] mounted) = []
  /\ nothing_selected
       (hooks (section_run (fun c : string => c) sample_coins sample_history
                 [CardClicked 0; ModalClosed; TimerFired] mounted)).
Proof.
  split; [reflexivity |]. split; [reflexivity |].
  apply (closed_and_quiet_selects_nothing string Z (fun c => c) sample_coins
           sample_history [CardClicked 0; ModalClosed; TimerFired]);
    reflexivity.
Defined.

Lemma open_close_cycle_witness :
  timers (@mounted string Z) = []
  /\ nth_error sample_coins 0 = Some "bitcoin"
  /\ hooks (section_run (fun c : string => c) sample_coins sample_history
              [CardClicked 0] mounted)
     = {| selectedCoin := Value "bitcoin";
          selectedHistoricalData := Value 2010;
          isModalOpen := true |}
  /\ section_run (fun c : string => c) sample_coins sample_history
       [CardClicked 0; ModalClosed; TimerFired] mounted
     = mounted.
Proof.
  split; [reflexivity |]. split; [reflexivity |].
  destruct (open_close_cycle string Z (fun c => c) sample_coins sample_history
              mounted 0 "bitcoin" eq_refl eq_refl) as (H1 & _ & H3).
  split; [exact H1 | exact H3].
Defined.

Lemma reopening_before_the_timer_empties_the_modal_witness :
  timers (@mounted string Z) = []
  /\ nth_error sample_coins 1 = Some "ethereum"
  /\ section_run (fun c : string => c) sample_coins sample_history
       [ModalClosed; CardClicked 1; TimerFired] mounted
     = {| hooks := {| selectedCoin := Null;
                      selectedHistoricalData := Null;
                      isModalOpen := true |};
          timers := [] |}.
Proof.
  split; [reflexivity |]. split; [reflexivity |].
  apply (reopening_before_the_timer_empties_the_modal string Z (fun c => c)
           sample_coins sample_history mounted 1 "ethereum"); reflexivity.
Defined.
